(** * Tasker_web: the presentation layer of the calendar-and-task application

    A shallow embedding of [frontend/src/App.js] and the properties of its
    specification.  The first part of the file holds the embedding, module by
    module in the order of the source; the second part holds the proofs.

    JavaScript strings are modelled as [string], one [ascii] per code unit
    (code units below 256).  React state is modelled by explicit records and
    state passing; [axios] calls consult an explicit backend oracle. *)

From Stdlib Require Import ZArith List String Ascii Bool Lia Arith PreOmega.
From Stdlib Require Import DecimalString DecimalN DecimalPos.
Import ListNotations.

Open Scope string_scope.
Open Scope list_scope.

(* ================================================================== *)
(** * Part I. The embedding *)
(* ================================================================== *)

(** ** The JavaScript built-ins the source relies on *)

(** [WhiteSpace] and [LineTerminator] code units below 256: TAB, LF, VT, FF,
    CR, SP and NBSP.  These are what [String.prototype.trim] strips. *)
Definition isWhiteSpace (c : ascii) : bool :=
  let n := nat_of_ascii c in
  Nat.eqb n 9 || Nat.eqb n 10 || Nat.eqb n 11 || Nat.eqb n 12
  || Nat.eqb n 13 || Nat.eqb n 32 || Nat.eqb n 160.

Fixpoint trimStart (s : string) : string :=
  match s with
  | EmptyString => EmptyString
  | String c r => if isWhiteSpace c then trimStart r else s
  end.

Fixpoint trimEnd (s : string) : string :=
  match s with
  | EmptyString => EmptyString
  | String c r =>
      match trimEnd r with
      | EmptyString => if isWhiteSpace c then EmptyString else String c EmptyString
      | t => String c t
      end
  end.

(** [s.trim()] *)
Definition trim (s : string) : string := trimEnd (trimStart s).

(** Truthiness of a string value: every string but the empty one. *)
Definition truthy (s : string) : bool := negb (s =? "").

(** [v || d] for a value that is a string, [null] or [undefined]. *)
Definition or_default (v : option string) (d : string) : string :=
  match v with
  | Some s => if truthy s then s else d
  | None => d
  end.

(** [arr.includes(x)] on an array of strings. *)
Definition includes (arr : list string) (x : string) : bool :=
  existsb (String.eqb x) arr.

(** A [Set] of strings is kept as the list of its elements in insertion
    order, which is the order its iterator (and so the spread [[...set]])
    yields.  [Set_add] is [Set.prototype.add]; [Set_of] is [new Set(iterable)],
    which adds the elements one by one from the left. *)
Definition Set_add (s : list string) (x : string) : list string :=
  if includes s x then s else s ++ [x].

Definition Set_of (l : list string) : list string := fold_left Set_add l [].

(** Outcome of running a piece of code that may throw. *)
Inductive Outcome (A : Type) : Type :=
| Returned (a : A)
| Thrown (msg : string).
Arguments Returned {A} a.
Arguments Thrown {A} msg.

(** ** The [Date] built-in (ECMAScript, "Date Objects")

    A time value is a number of milliseconds since 1970-01-01T00:00:00Z; a
    [Date] holds a time value or NaN (an Invalid Date, [None]).  The host
    time zone is a parameter of everything that reads or writes local time:
    ECMAScript leaves its rules to the host. *)

Open Scope Z_scope.

Definition msPerSecond : Z := 1000.
Definition msPerMinute : Z := 60000.
Definition msPerHour : Z := 3600000.
Definition msPerDay : Z := 86400000.

Definition Day (t : Z) : Z := t / msPerDay.

(** Year, month (0 = January) and day of the month (from 1) of a day number
    in the proleptic Gregorian calendar: the abstract operations
    [YearFromTime], [MonthFromTime] and [DateFromTime] computed in closed form
    over 400-year eras of 146097 days whose years start on March 1st.
    [doe] is the day of the era, [yoe] the year of the era, [doy] the day of
    that year and [mp] its month, counted from March. *)
Definition yoe_of (doe : Z) : Z :=
  (doe - doe / 1460 + doe / 36524 - doe / 146096) / 365.
Definition doy_of (doe : Z) : Z :=
  doe - (365 * yoe_of doe + yoe_of doe / 4 - yoe_of doe / 100).
Definition mp_of (doy : Z) : Z := (5 * doy + 2) / 153.
Definition dom_of (doy : Z) : Z := doy - (153 * mp_of doy + 2) / 5 + 1.

Definition civil_of_day (z : Z) : Z * Z * Z :=
  let era := (z + 719468) / 146097 in
  let doe := (z + 719468) mod 146097 in
  let mp := mp_of (doy_of doe) in
  let m := if mp <? 10 then mp + 2 else mp - 10 in
  let y := yoe_of doe + era * 400 + (if m <=? 1 then 1 else 0) in
  (y, m, dom_of (doy_of doe)).

Definition YearFromTime (t : Z) : Z := fst (fst (civil_of_day (Day t))).
Definition MonthFromTime (t : Z) : Z := snd (fst (civil_of_day (Day t))).
Definition DateFromTime (t : Z) : Z := snd (civil_of_day (Day t)).
Definition WeekDay (t : Z) : Z := (Day t + 4) mod 7.
Definition HourFromTime (t : Z) : Z := (t / msPerHour) mod 24.
Definition MinFromTime (t : Z) : Z := (t / msPerMinute) mod 60.
Definition SecFromTime (t : Z) : Z := (t / msPerSecond) mod 60.
Definition msFromTime (t : Z) : Z := t mod msPerSecond.

(** Day number of the day [d] of month [m] (0 = January) of year [y]. *)
Definition day_of_civil (y m d : Z) : Z :=
  let y' := if m <=? 1 then y - 1 else y in
  let era := y' / 400 in
  let yoe := y' mod 400 in
  let mp := if m <=? 1 then m + 10 else m - 2 in
  let doy := (153 * mp + 2) / 5 + d - 1 in
  let doe := yoe * 365 + yoe / 4 - yoe / 100 + doy in
  era * 146097 + doe - 719468.

(** [MakeDay]: months beyond 0..11 carry into the year, and the day of the
    month is added as a plain offset, so that day 0 is the last day of the
    month before. *)
Definition MakeDay (year month date : Z) : Z :=
  let ym := year + month / 12 in
  let mn := month mod 12 in
  day_of_civil ym mn 1 + date - 1.

(** The leap years and the lengths of the months of the Gregorian calendar
    ([InLeapYear]; the month is counted from 0). *)
Definition InLeapYear (y : Z) : bool :=
  (y mod 4 =? 0) && (negb (y mod 100 =? 0) || (y mod 400 =? 0)).

Definition days_in_month (y m : Z) : Z :=
  if m =? 1 then (if InLeapYear y then 29 else 28)
  else if (m =? 3) || (m =? 5) || (m =? 8) || (m =? 10) then 30
  else 31.

(** [DayFromYear]: the day number of the first day of year [y], as ECMAScript
    defines it; and the days of the year before month [m]. *)
Definition DayFromYear (y : Z) : Z :=
  365 * (y - 1970) + (y - 1969) / 4 - (y - 1901) / 100 + (y - 1601) / 400.

Definition days_before_month (y m : Z) : Z :=
  fold_right Z.add 0
    (map (fun k => days_in_month y (Z.of_nat k)) (seq 0 (Z.to_nat m))).

Definition MakeTime (hour min sec ms : Z) : Z :=
  hour * msPerHour + min * msPerMinute + sec * msPerSecond + ms.

Definition MakeDate (day time : Z) : Z := day * msPerDay + time.

Definition Date : Type := option Z.

Definition TimeClip (t : Z) : Date :=
  if Z.abs t <=? 8640000000000000 then Some t else None.

(** The time zone of the host, as ECMAScript sees it through
    [LocalTZA(t, isUTC)]: the offset of local time from UTC, in milliseconds,
    in effect at the UTC time [t] ([utc_offset]), and the offset by which the
    host reads the local time [t] ([local_offset]); at a local time that a
    transition skips or repeats, the standard asks for the offset before the
    transition. *)
Record Zone : Type := mkZone {
  utc_offset : Z -> Z;
  local_offset : Z -> Z
}.

(** A zone without transitions, [minutes] east of UTC.  A number stands for
    that zone wherever a zone is expected. *)
Definition fixedZone (minutes : Z) : Zone :=
  {| utc_offset := fun _ => minutes * msPerMinute;
     local_offset := fun _ => minutes * msPerMinute |}.

Coercion fixedZone : Z >-> Zone.

(** A zone with transitions, given by the offset, in minutes, in effect
    before the first of them and, in ascending order, the UTC time of each
    transition with the offset that begins there.  A local time is read with
    the new offset from the first local time that is neither skipped nor
    repeated by the transition. *)
Definition offset_at (initial : Z) (transitions : list (Z * Z)) (t : Z) : Z :=
  fold_left (fun off '(start, after) => if start <=? t then after else off)
            transitions initial.

Definition offset_of_local (initial : Z) (transitions : list (Z * Z)) (t : Z) : Z :=
  fold_left (fun off '(start, after) =>
               if start + Z.max off after * msPerMinute <=? t then after else off)
            transitions initial.

Definition zoneOf (initial : Z) (transitions : list (Z * Z)) : Zone :=
  {| utc_offset := fun t => offset_at initial transitions t * msPerMinute;
     local_offset := fun t => offset_of_local initial transitions t * msPerMinute |}.

Definition LocalTZA (tz : Zone) (t : Z) (isUTC : bool) : Z :=
  if isUTC then utc_offset tz t else local_offset tz t.
Definition LocalTime (tz : Zone) (t : Z) : Z := t + LocalTZA tz t true.
Definition UTC (tz : Zone) (t : Z) : Z := t - LocalTZA tz t false.

(** [MakeFullYear]: the constructor [new Date(year, month, ...)] reads a year
    from 0 to 99 as a year of the twentieth century. *)
Definition MakeFullYear (year : Z) : Z :=
  if (0 <=? year) && (year <=? 99) then 1900 + year else year.

(** [new Date(year, month, date)], the fields being read in local time. *)
Definition Date_ymd (tz : Zone) (year month date : Z) : Date :=
  TimeClip (UTC tz (MakeDate (MakeDay (MakeFullYear year) month date)
                             (MakeTime 0 0 0 0))).

(** The getters, on a valid time value. *)
Definition getFullYear (tz : Zone) (t : Z) : Z := YearFromTime (LocalTime tz t).
Definition getMonth (tz : Zone) (t : Z) : Z := MonthFromTime (LocalTime tz t).
Definition getDate (tz : Zone) (t : Z) : Z := DateFromTime (LocalTime tz t).
Definition getDay (tz : Zone) (t : Z) : Z := WeekDay (LocalTime tz t).

(** The getters on a [Date] object: NaN ([None]) on an Invalid Date. *)
Definition Date_getDate (tz : Zone) (d : Date) : option Z := option_map (getDate tz) d.
Definition Date_getDay (tz : Zone) (d : Date) : option Z := option_map (getDay tz) d.

(** *** Formatting *)

Definition digit (n : Z) : ascii := ascii_of_nat (48 + Z.to_nat (n mod 10)).

Definition pad2 (n : Z) : string :=
  String (digit (n / 10)) (String (digit n) "").
Definition pad3 (n : Z) : string := String (digit (n / 100)) (pad2 n).
Definition pad4 (n : Z) : string := String (digit (n / 1000)) (pad3 n).
Definition pad6 (n : Z) : string :=
  String (digit (n / 100000)) (String (digit (n / 10000)) (pad4 n)).

(** The year of the ISO format: four digits from 0 to 9999, otherwise a sign
    and six digits. *)
Definition isoYear (y : Z) : string :=
  if (0 <=? y) && (y <=? 9999) then pad4 y
  else String (if y <? 0 then "-"%char else "+"%char) (pad6 (Z.abs y)).

(** [d.toISOString()]: the UTC fields as YYYY-MM-DDTHH:mm:ss.sssZ; a
    RangeError on an Invalid Date. *)
Definition isoString (t : Z) : string :=
  (isoYear (YearFromTime t) ++ "-" ++ pad2 (MonthFromTime t + 1) ++ "-"
   ++ pad2 (DateFromTime t) ++ "T" ++ pad2 (HourFromTime t) ++ ":"
   ++ pad2 (MinFromTime t) ++ ":" ++ pad2 (SecFromTime t) ++ "."
   ++ pad3 (msFromTime t) ++ "Z")%string.

Definition toISOString (d : Date) : Outcome string :=
  match d with
  | Some t => Returned (isoString t)
  | None => Thrown "RangeError: Invalid time value"
  end.

(** [s.slice(0, n)] *)
Definition slice0 (n : nat) (s : string) : string := substring 0 n s.


(** *** Parsing: [new Date(string)]

    The date-time string format of ECMAScript: a date [YYYY], [YYYY-MM] or
    [YYYY-MM-DD], the year also written as a sign and six digits; optionally
    followed by [T] and a time [HH:mm], [HH:mm:ss] or [HH:mm:ss.sss], and then
    by a zone designator [Z] or [+HH:mm] / [-HH:mm].  Without a designator, a
    date-only form is read as UTC and a date-time form as local time.

    The parser also reads what the engines read beyond the format when they
    meet a string close to it: a space in place of [T] after a full date, [t]
    and [z] in lower case, a fraction of any number of digits, of which the
    first three count, an offset written without its colon, and a day up to
    31 in every month, carried over into the next month.  Every other string,
    which an engine may still read in a way of its own, is taken as an
    Invalid Date. *)

Definition digit_of (c : ascii) : option Z :=
  let n := nat_of_ascii c in
  if (Nat.leb 48 n && Nat.leb n 57)%bool then Some (Z.of_nat (n - 48)) else None.

Fixpoint read_digits (k : nat) (acc : Z) (s : string) : option (Z * string) :=
  match k with
  | O => Some (acc, s)
  | S k' =>
      match s with
      | EmptyString => None
      | String c r =>
          match digit_of c with
          | Some v => read_digits k' (10 * acc + v) r
          | None => None
          end
      end
  end.

Definition read_char (c : ascii) (s : string) : option string :=
  match s with
  | EmptyString => None
  | String c' r => if Ascii.eqb c c' then Some r else None
  end.

Definition bind_opt {A B : Type} (o : option A) (f : A -> option B) : option B :=
  match o with
  | Some a => f a
  | None => None
  end.

Declare Scope option_scope.
Delimit Scope option_scope with opt.
Notation "x <- e ;; k" := (bind_opt e (fun x => k))
  (at level 61, e at next level, right associativity) : option_scope.
Notation "' pat <- e ;; k" := (bind_opt e (fun x => match x with pat => k end))
  (at level 61, pat pattern, e at next level, right associativity) : option_scope.
Open Scope option_scope.

(** The rest of a run of digits. *)
Fixpoint skip_digits (s : string) : string :=
  match s with
  | EmptyString => EmptyString
  | String c r =>
      match digit_of c with
      | Some _ => skip_digits r
      | None => s
      end
  end.

(** The fraction of a second: one digit or more, the first three of which
    give the milliseconds. *)
Definition read_fraction (s : string) : option (Z * string) :=
  '(d1, r1) <- read_digits 1 0 s ;;
  match read_digits 1 0 r1 with
  | None => Some (100 * d1, r1)
  | Some (d2, r2) =>
      match read_digits 1 0 r2 with
      | None => Some (100 * d1 + 10 * d2, r2)
      | Some (d3, r3) => Some (100 * d1 + 10 * d2 + d3, skip_digits r3)
      end
  end.

(** The seconds and milliseconds that may follow [HH:mm]. *)
Definition parse_seconds (s : string) : option (Z * Z * string) :=
  match read_char ":" s with
  | None => Some (0, 0, s)
  | Some r =>
      '(sec, r1) <- read_digits 2 0 r ;;
      match read_char "." r1 with
      | None => Some (sec, 0, r1)
      | Some r2 =>
          '(ms, r3) <- read_fraction r2 ;;
          Some (sec, ms, r3)
      end
  end.

(** The zone designator: [Some None] when there is none, [Some (Some off)]
    for an offset of [off] minutes east of UTC. *)
Definition parse_zone (s : string) : option (option Z) :=
  match s with
  | EmptyString => Some None
  | String c r =>
      if (Ascii.eqb c "Z" || Ascii.eqb c "z")%bool
      then (if (r =? "")%string then Some (Some 0) else None)
      else if (Ascii.eqb c "+" || Ascii.eqb c "-")%bool then
        '(hh, r1) <- read_digits 2 0 r ;;
        let r2 := match read_char ":" r1 with Some r' => r' | None => r1 end in
        '(mm, r3) <- read_digits 2 0 r2 ;;
        if ((r3 =? "")%string && (hh <=? 23) && (mm <=? 59))%bool
        then Some (Some ((if Ascii.eqb c "-" then -1 else 1) * (hh * 60 + mm)))
        else None
      else None
  end.

Definition valid_time (h mi sec ms : Z) : bool :=
  ((h <=? 23) && (mi <=? 59) && (sec <=? 59))%bool
  || ((h =? 24) && (mi =? 0) && (sec =? 0) && (ms =? 0))%bool.

(** The year: four digits, or a sign and six digits, minus zero excepted. *)
Definition parse_year (s : string) : option (Z * string) :=
  match s with
  | EmptyString => None
  | String c r =>
      if Ascii.eqb c "+" then read_digits 6 0 r
      else if Ascii.eqb c "-" then
        '(y, r1) <- read_digits 6 0 r ;;
        if y =? 0 then None else Some (- y, r1)
      else read_digits 4 0 s
  end.

(** The month or the day, when it is there: a hyphen and two digits. *)
Definition parse_date_field (s : string) : option (option Z * string) :=
  match read_char "-" s with
  | Some r => '(v, r1) <- read_digits 2 0 r ;; Some (Some v, r1)
  | None => Some (None, s)
  end.

(** What may stand between the date and the time. *)
Definition time_separator (c : ascii) (full_date : bool) : bool :=
  (Ascii.eqb c "T" || Ascii.eqb c "t" || (Ascii.eqb c " " && full_date))%bool.

(** [Date.parse]: the time value, or NaN. *)
Definition Date_parse (tz : Zone) (s : string) : option Z :=
  '(y, r1) <- parse_year s ;;
  '(mo, r2) <- parse_date_field r1 ;;
  '(dd, r3) <- match mo with
               | Some _ => parse_date_field r2
               | None => Some (None, r2)
               end ;;
  let m := match mo with Some v => v | None => 1 end in
  let d := match dd with Some v => v | None => 1 end in
  if negb ((1 <=? m) && (m <=? 12) && (1 <=? d) && (d <=? 31))%bool then None
  else
    let day := MakeDay y (m - 1) d in
    match r3 with
    | EmptyString => Some (MakeDate day 0)
    | String c r4 =>
        if negb (time_separator c (match dd with Some _ => true | None => false end))
        then None
        else
          '(h, r5) <- read_digits 2 0 r4 ;;
          r6 <- read_char ":" r5 ;;
          '(mi, r7) <- read_digits 2 0 r6 ;;
          '(sec, ms, r8) <- parse_seconds r7 ;;
          zone <- parse_zone r8 ;;
          if negb (valid_time h mi sec ms) then None
          else
            let tv := MakeDate day (MakeTime h mi sec ms) in
            match zone with
            | None => Some (UTC tz tv)
            | Some off => Some (tv - off * msPerMinute)
            end
    end.

(** [new Date(s)] *)
Definition Date_of_string (tz : Zone) (s : string) : Date :=
  match Date_parse tz s with
  | Some tv => TimeClip tv
  | None => None
  end.


Close Scope option_scope.

(** *** [d.toDateString()]

    Weekday name, month name, two-digit day and the year padded to at least
    four digits, all in local time: [Mon Jan 15 2024]. *)

Definition weekdayNames : list string :=
  ["Sun"; "Mon"; "Tue"; "Wed"; "Thu"; "Fri"; "Sat"]%string.

Definition monthAbbrevs : list string :=
  ["Jan"; "Feb"; "Mar"; "Apr"; "May"; "Jun";
   "Jul"; "Aug"; "Sep"; "Oct"; "Nov"; "Dec"]%string.

(** Decimal digits of a positive number, without padding. *)
Definition decimal (n : Z) : string :=
  NilEmpty.string_of_uint (N.to_uint (Z.to_N n)).

(** [ToZeroPaddedDecimalString(n, 4)] *)
Definition paddedYear (n : Z) : string :=
  ((if (n <? 10000)%Z then "" else decimal (n / 10000)%Z) ++ pad4 n)%string.

(** The year: a minus sign for a negative year, then the padded digits. *)
Definition yearString (y : Z) : string :=
  ((if (y <? 0)%Z then "-" else "") ++ paddedYear (Z.abs y))%string.

Definition dateString (t : Z) : string :=
  (nth (Z.to_nat (WeekDay t)) weekdayNames "" ++ " "
   ++ nth (Z.to_nat (MonthFromTime t)) monthAbbrevs "" ++ " "
   ++ pad2 (DateFromTime t) ++ " "
   ++ yearString (YearFromTime t))%string.

Definition toDateString (tz : Zone) (d : Date) : string :=
  match d with
  | Some t => dateString (LocalTime tz t)
  | None => "Invalid Date"
  end.

(* ------------------------------------------------------------------ *)
(** ** AuthProvider *)

Open Scope string_scope.

Record User : Type := mkUser {
  user_id : string;
  user_email : string;
  user_name : string;
  user_picture : string
}.

(** [window.location] *)
Record Location : Type := mkLocation {
  pathname : string;
  search : string;
  hash : string
}.

(** The requests the provider sends through [axios]. *)
Inductive Request : Type :=
| PostLogout
| PostSession (session_id : string)
| GetMe.

(** Everything an auth function does that is visible outside of it, in the
    order in which it happens. *)
Inductive Effect : Type :=
| Http (r : Request)
| SetUser (u : option User)
| SetLoading (b : bool)
| ReplaceState (url : string)
| ConsoleError (msg : string).

(** The backend as the provider sees it: each request resolves with its
    [response.data] or rejects. *)
Record Backend : Type := mkBackend {
  logout_response : option unit;
  session_response : string -> option User;
  me_response : option User
}.

(** The provider's two state cells, the address bar and the trace. *)
Record World : Type := mkWorld {
  user : option User;
  loading : bool;
  location : Location;
  trace : list Effect
}.

(** [useState(null)] and [useState(true)] *)
Definition initialWorld (loc : Location) : World :=
  {| user := None; loading := true; location := loc; trace := [] |}.

(** Code that reads the backend, updates the world and returns or throws. *)
Definition M (A : Type) : Type := Backend -> World -> Outcome A * World.

Definition ret {A : Type} (a : A) : M A := fun _ w => (Returned a, w).

Definition throw {A : Type} (msg : string) : M A := fun _ w => (Thrown msg, w).

Definition bind {A B : Type} (m : M A) (k : A -> M B) : M B :=
  fun be w =>
    match m be w with
    | (Returned a, w') => k a be w'
    | (Thrown e, w') => (Thrown e, w')
    end.

(** [try { body } catch (error) { handler }] *)
Definition try_catch {A : Type} (body : M A) (handler : string -> M A) : M A :=
  fun be w =>
    match body be w with
    | (Returned a, w') => (Returned a, w')
    | (Thrown e, w') => handler e be w'
    end.

Declare Scope auth_scope.
Delimit Scope auth_scope with auth.
Notation "x <- e ;; k" := (bind e (fun x => k))
  (at level 61, e at next level, right associativity) : auth_scope.
Notation "e ;;; k" := (bind e (fun _ => k))
  (at level 61, right associativity) : auth_scope.

Definition emit (e : Effect) (w : World) : World :=
  {| user := user w; loading := loading w; location := location w;
     trace := trace w ++ [e] |}.

Definition axios (r : Request) {A : Type} (resp : Backend -> option A) : M A :=
  fun be w =>
    match resp be with
    | Some data => (Returned data, emit (Http r) w)
    | None => (Thrown "AxiosError", emit (Http r) w)
    end.

Definition setUser (u : option User) : M unit :=
  fun _ w =>
    (Returned tt,
     emit (SetUser u)
       {| user := u; loading := loading w; location := location w;
          trace := trace w |}).

Definition setLoading (b : bool) : M unit :=
  fun _ w =>
    (Returned tt,
     emit (SetLoading b)
       {| user := user w; loading := b; location := location w;
          trace := trace w |}).

Definition console_error (msg : string) : M unit :=
  fun _ w => (Returned tt, emit (ConsoleError msg) w).

(** [window.history.replaceState({}, document.title, url)]: the address
    becomes [url], without query or fragment. *)
Definition replaceState (url : string) : M unit :=
  fun _ w =>
    (Returned tt,
     emit (ReplaceState url)
       {| user := user w; loading := loading w;
          location := {| pathname := url; search := ""; hash := "" |};
          trace := trace w |}).

Definition get_location : M Location := fun _ w => (Returned (location w), w).

Open Scope auth_scope.

Definition logout : M unit :=
  try_catch
    (axios PostLogout logout_response ;;;
     setUser None)
    (fun error =>
       console_error "Logout error:" ;;;
       setUser None).

Definition processSession (sessionId : string) : M User :=
  try_catch
    (data <- axios (PostSession sessionId) (fun be => session_response be sessionId) ;;
     setUser (Some data) ;;;
     ret data)
    (fun error =>
       console_error "Session processing error:" ;;;
       throw error).

Definition checkAuth : M unit :=
  try_catch
    (data <- axios GetMe me_response ;;
     setUser (Some data))
    (fun error => setUser None).

(** The capture group of [/session_id=([^&]+)/]: the longest run of
    characters other than [&]. *)
Fixpoint capture_not_amp (s : string) : string :=
  match s with
  | EmptyString => EmptyString
  | String c r => if Ascii.eqb c "&" then EmptyString else String c (capture_not_amp r)
  end.

(** Removes [p] from the front of [s], when it is there. *)
Fixpoint strip_prefix (p s : string) : option string :=
  match p with
  | EmptyString => Some s
  | String a p' =>
      match s with
      | EmptyString => None
      | String b s' => if Ascii.eqb a b then strip_prefix p' s' else None
      end
  end.

(** The regular expression tried at one position. *)
Definition session_id_at (s : string) : option string :=
  match strip_prefix "session_id=" s with
  | Some rest =>
      match capture_not_amp rest with
      | EmptyString => None
      | cap => Some cap
      end
  | None => None
  end.

(** [hash.match(/session_id=([^&]+)/)]: the first position, from the left,
    at which the expression matches; the result is the capture group, or
    [None] for [null]. *)
Fixpoint match_session_id (s : string) : option string :=
  match session_id_at s with
  | Some cap => Some cap
  | None =>
      match s with
      | EmptyString => None
      | String _ r => match_session_id r
      end
  end.

Definition initAuth : M unit :=
  loc <- get_location ;;
  (match match_session_id (hash loc) with
   | Some sessionId =>
       try_catch
         (processSession sessionId ;;;
          loc' <- get_location ;;
          replaceState (pathname loc'))
         (fun error => console_error "Session processing failed:")
   | None => checkAuth
   end) ;;;
  setLoading false.

Close Scope auth_scope.

(** ** App *)

Inductive Screen : Type :=
| LoadingScreen
| DashboardScreen (u : User)
| LoginPageScreen.

(** What [App] renders from the context value [{ user, loading }]. *)
Definition App (user : option User) (loading : bool) : Screen :=
  if loading then LoadingScreen
  else match user with
       | Some u => DashboardScreen u
       | None => LoginPageScreen
       end.

(** The three states of the top-level container. *)
Inductive AuthState : Type :=
| StLoading
| StAuthenticated (u : User)
| StAnonymous.

Definition authState (w : World) : AuthState :=
  if loading w then StLoading
  else match user w with
       | Some u => StAuthenticated u
       | None => StAnonymous
       end.

(* ------------------------------------------------------------------ *)
(** ** TaskForm *)

(** A task as the backend returns it; absent or [null] fields are [None]. *)
Record Task : Type := mkTask {
  task_id : string;
  task_title : option string;
  task_description : option string;
  task_category : option string;
  task_priority : option string;
  task_completed : bool;
  task_due_date : option string;
  task_reminder : option string
}.

Record FormData : Type := mkFormData {
  title : string;
  description : string;
  category : string;
  priority : string;
  due_date : string;
  reminder : string
}.

(** The object passed to [onSubmit]: the form data with the two timestamps
    as ISO strings or [null]. *)
Record SubmitData : Type := mkSubmitData {
  sd_title : string;
  sd_description : string;
  sd_category : string;
  sd_priority : string;
  sd_due_date : option string;
  sd_reminder : option string
}.

Definition defaultCategories : list string :=
  ["General"; "Work"; "Personal"; "Health"; "Shopping"; "Finance"].

Definition priorities : list string := ["Low"; "Medium"; "High"].

(** [v ? new Date(v).toISOString().slice(0, 16) : ''] *)
Definition initTimestamp (tz : Zone) (v : option string) : Outcome string :=
  match v with
  | Some s =>
      if truthy s then
        match toISOString (Date_of_string tz s) with
        | Returned iso => Returned (slice0 16 iso)
        | Thrown e => Thrown e
        end
      else Returned ""
  | None => Returned ""
  end.

(** The initial [formData] of [TaskForm], for the optional [task] prop. *)
Definition initialFormData (tz : Zone) (task : option Task) : Outcome FormData :=
  match initTimestamp tz (bind_opt task task_due_date) with
  | Thrown e => Thrown e
  | Returned due =>
      match initTimestamp tz (bind_opt task task_reminder) with
      | Thrown e => Thrown e
      | Returned rem =>
          Returned
            {| title := or_default (bind_opt task task_title) "";
               description := or_default (bind_opt task task_description) "";
               category := or_default (bind_opt task task_category) "General";
               priority := or_default (bind_opt task task_priority) "Medium";
               due_date := due;
               reminder := rem |}
      end
  end.

(** [field ? new Date(field).toISOString() : null] *)
Definition submitTimestamp (tz : Zone) (field : string) : Outcome (option string) :=
  if truthy field then
    match toISOString (Date_of_string tz field) with
    | Returned iso => Returned (Some iso)
    | Thrown e => Thrown e
    end
  else Returned None.

(** [handleSubmit]: the argument of [onSubmit]. *)
Definition handleSubmit (tz : Zone) (formData : FormData) : Outcome SubmitData :=
  match submitTimestamp tz (due_date formData) with
  | Thrown e => Thrown e
  | Returned due =>
      match submitTimestamp tz (reminder formData) with
      | Thrown e => Thrown e
      | Returned rem =>
          Returned
            {| sd_title := title formData;
               sd_description := description formData;
               sd_category := category formData;
               sd_priority := priority formData;
               sd_due_date := due;
               sd_reminder := rem |}
      end
  end.

(** The state of the form component. *)
Record TaskForm : Type := mkTaskForm {
  formData : FormData;
  availableCategories : list string;
  showNewCategory : bool;
  newCategory : string
}.

Definition initialTaskForm (fd : FormData) : TaskForm :=
  {| formData := fd;
     availableCategories := defaultCategories;
     showNewCategory := false;
     newCategory := "" |}.

Definition setFormData (f : FormData -> FormData) (st : TaskForm) : TaskForm :=
  {| formData := f (formData st);
     availableCategories := availableCategories st;
     showNewCategory := showNewCategory st;
     newCategory := newCategory st |}.

Definition with_title (v : string) (fd : FormData) : FormData :=
  {| title := v; description := description fd; category := category fd;
     priority := priority fd; due_date := due_date fd; reminder := reminder fd |}.
Definition with_description (v : string) (fd : FormData) : FormData :=
  {| title := title fd; description := v; category := category fd;
     priority := priority fd; due_date := due_date fd; reminder := reminder fd |}.
Definition with_category (v : string) (fd : FormData) : FormData :=
  {| title := title fd; description := description fd; category := v;
     priority := priority fd; due_date := due_date fd; reminder := reminder fd |}.
Definition with_priority (v : string) (fd : FormData) : FormData :=
  {| title := title fd; description := description fd; category := category fd;
     priority := v; due_date := due_date fd; reminder := reminder fd |}.
Definition with_due_date (v : string) (fd : FormData) : FormData :=
  {| title := title fd; description := description fd; category := category fd;
     priority := priority fd; due_date := v; reminder := reminder fd |}.
Definition with_reminder (v : string) (fd : FormData) : FormData :=
  {| title := title fd; description := description fd; category := category fd;
     priority := priority fd; due_date := due_date fd; reminder := v |}.

(** [fetchCategories] of the form, for the outcome of
    [GET /api/tasks/categories]: on an error the list is left as it is. *)
Definition fetchCategories (response : option (list string)) (st : TaskForm) : TaskForm :=
  match response with
  | Some userCategories =>
      let allCategories := Set_of (defaultCategories ++ userCategories)%list in
      {| formData := formData st;
         availableCategories := allCategories;
         showNewCategory := showNewCategory st;
         newCategory := newCategory st |}
  | None => st
  end.

Definition handleAddCategory (st : TaskForm) : TaskForm :=
  if truthy (trim (newCategory st))
     && negb (includes (availableCategories st) (trim (newCategory st)))
  then
    let updatedCategories := (availableCategories st ++ [trim (newCategory st)])%list in
    {| formData := with_category (trim (newCategory st)) (formData st);
       availableCategories := updatedCategories;
       showNewCategory := false;
       newCategory := "" |}
  else st.

(** What the user can do with the form, and the answer of the categories
    request arriving. *)
Inductive FormAction : Type :=
| ChangeTitle (value : string)
| ChangeDescription (value : string)
| ChangeCategory (value : string)
| ChangePriority (value : string)
| ChangeDueDate (value : string)
| ChangeReminder (value : string)
| ChangeNewCategory (value : string)
| ClickAddCategory
| ClickCancelNewCategory
| CategoriesResponse (response : option (list string)).

(** The event handlers of the form's controls. *)
Definition formStep (st : TaskForm) (a : FormAction) : TaskForm :=
  match a with
  | ChangeTitle v => setFormData (with_title v) st
  | ChangeDescription v => setFormData (with_description v) st
  | ChangeCategory v =>
      if v =? "_add_new_" then
        {| formData := formData st;
           availableCategories := availableCategories st;
           showNewCategory := true;
           newCategory := newCategory st |}
      else setFormData (with_category v) st
  | ChangePriority v => setFormData (with_priority v) st
  | ChangeDueDate v => setFormData (with_due_date v) st
  | ChangeReminder v => setFormData (with_reminder v) st
  | ChangeNewCategory v =>
      {| formData := formData st;
         availableCategories := availableCategories st;
         showNewCategory := showNewCategory st;
         newCategory := v |}
  | ClickAddCategory => handleAddCategory st
  | ClickCancelNewCategory =>
      {| formData := formData st;
         availableCategories := availableCategories st;
         showNewCategory := false;
         newCategory := "" |}
  | CategoriesResponse r => fetchCategories r st
  end.

Definition formRun (st : TaskForm) (acts : list FormAction) : TaskForm :=
  fold_left formStep acts st.

(** The [<option>] values of the two selects, as rendered in state [st]. *)
Definition priorityOptions : list string := priorities.
Definition categoryOptions (st : TaskForm) : list string :=
  (availableCategories st ++ ["_add_new_"])%list.

(** A select can only take the value of one of its options. *)
Definition action_offered (st : TaskForm) (a : FormAction) : bool :=
  match a with
  | ChangePriority v => includes priorityOptions v
  | ChangeCategory v => includes (categoryOptions st) v
  | _ => true
  end.

Fixpoint actions_offered (st : TaskForm) (acts : list FormAction) : bool :=
  match acts with
  | [] => true
  | a :: rest => action_offered st a && actions_offered (formStep st a) rest
  end.

(** Actions that can change the category field. *)
Definition touches_category (a : FormAction) : bool :=
  match a with
  | ChangeCategory _ | ClickAddCategory => true
  | _ => false
  end.

(** Submitting the form: the browser's constraint validation refuses a
    [required] text input whose value is empty ([None]: [handleSubmit] is not
    called); otherwise [handleSubmit] runs. *)
Definition submitForm (tz : Zone) (st : TaskForm) : option (Outcome SubmitData) :=
  if title (formData st) =? "" then None
  else Some (handleSubmit tz (formData st)).

(* ------------------------------------------------------------------ *)
(** ** CalendarView *)

Record CalendarEvent : Type := mkEvent {
  event_id : string;
  event_title : string;
  start_time : string;
  all_day : bool
}.

(** The two loops of [getDaysInMonth] run [n] times for a bound [n], and not
    at all when the bound is NaN. *)
Definition loop_count (bound : option Z) : nat :=
  match bound with
  | Some n => Z.to_nat n
  | None => O
  end.

(** [getDaysInMonth(date)] for a valid [date]: [None] entries are the [null]
    slots, [Some d] entries hold the [Date] object [d]. *)
Definition getDaysInMonth (tz : Zone) (date : Z) : list (option Date) :=
  let year := getFullYear tz date in
  let month := getMonth tz date in
  let firstDay := Date_ymd tz year month 1 in
  let lastDay := Date_ymd tz year (month + 1) 0 in
  let daysInMonth := Date_getDate tz lastDay in
  let startingDayOfWeek := Date_getDay tz firstDay in
  (repeat None (loop_count startingDayOfWeek)
   ++ map (fun i => Some (Date_ymd tz year month (Z.of_nat i)))
          (seq 1 (loop_count daysInMonth)))%list.




(* ------------------------------------------------------------------ *)
(** ** Dashboard *)

(** [fetchCategories] of the dashboard: on an error the list falls back to
    the defaults. *)
Definition Dashboard_fetchCategories (response : option (list string))
  (availableCategories : list string) : list string :=
  match response with
  | Some userCategories => Set_of (defaultCategories ++ userCategories)%list
  | None => defaultCategories
  end.

(* ------------------------------------------------------------------ *)
(** ** Vocabulary of the specification *)

(** The requests of a trace, in the order in which they were sent. *)
Definition requests (tr : list Effect) : list Request :=
  flat_map (fun e => match e with Http r => [r] | _ => [] end) tr.

(** How many times a trace sets [loading] to [false]. *)
Definition loading_cleared (tr : list Effect) : nat :=
  List.length (filter (fun e => match e with SetLoading false => true | _ => false end) tr).

(** The screen that belongs to each state of the top-level container. *)
Definition screen_of (s : AuthState) : Screen :=
  match s with
  | StLoading => LoadingScreen
  | StAuthenticated u => DashboardScreen u
  | StAnonymous => LoginPageScreen
  end.

(** The reconstruction of the user on load, as the specification words it:
    with a session id in the fragment, one POST /api/auth/session and the
    fragment gone afterwards; without, one GET /api/auth/me; in every case a
    normal return with [loading] set to [false] exactly once, at the end. *)
Definition initAuth_as_stated (be : Backend) (loc : Location) : Prop :=
  let '(r, w) := initAuth be (initialWorld loc) in
  match match_session_id (hash loc) with
  | Some sid => requests (trace w) = [PostSession sid] /\ hash (location w) = ""
  | None => requests (trace w) = [GetMe]
  end
  /\ r = Returned tt
  /\ loading w = false
  /\ loading_cleared (trace w) = 1%nat
  /\ last (trace w) (SetLoading true) = SetLoading false.

(** The form data of a form opened without a task. *)
Definition newTaskFormData : FormData :=
  {| title := ""; description := ""; category := "General";
     priority := "Medium"; due_date := ""; reminder := "" |}.

(** Opening the edit form on [task] and submitting it without touching any
    field. *)
Definition editAndSubmit (tz : Zone) (task : Task) : Outcome SubmitData :=
  match initialFormData tz (Some task) with
  | Returned fd => handleSubmit tz fd
  | Thrown e => Thrown e
  end.

(** The same for one timestamp field: what the form shows, then what it
    submits. *)
Definition editTimestamp (tz : Zone) (stored : option string) : Outcome (option string) :=
  match initTimestamp tz stored with
  | Returned field => submitTimestamp tz field
  | Thrown e => Thrown e
  end.

(** A task due on 15 January 2024 at 10:30 UTC. *)
Definition dentistTask : Task :=
  {| task_id := "7c9e6679";
     task_title := Some "Dentist";
     task_description := None;
     task_category := Some "Health";
     task_priority := Some "High";
     task_completed := false;
     task_due_date := Some "2024-01-15T10:30:00.000Z";
     task_reminder := None |}.

(** The time value of local midnight at the start of day [d] of month [m] of
    year [y], and the weekday (0 = Sunday) of the first of the month. *)
Definition local_midnight (tz : Zone) (y m d : Z) : Z :=
  UTC tz (MakeDate (day_of_civil y m d) 0).

Definition weekday_of_first (y m : Z) : Z := (day_of_civil y m 1 + 4) mod 7.

(** The month grid made of one [null] per weekday before the first of the
    month, then local midnight of the days 1 to [days_in_month]. *)
Definition month_grid (tz : Zone) (y m : Z) : list (option Date) :=
  (repeat None (Z.to_nat (weekday_of_first y m))
   ++ map (fun i => Some (Some (local_midnight tz y m (Z.of_nat i))))
          (seq 1 (Z.to_nat (days_in_month y m))))%list.

(** The grid as the specification describes it: with [w] the weekday of the
    first of the month of [date] and [n] the length of that month, [w] nulls
    followed by dates that are the days 1 to [n] of that month, in this order,
    and nothing else. *)
Definition getDaysInMonth_as_stated (tz : Zone) (date : Z) : Prop :=
  let year := getFullYear tz date in
  let month := getMonth tz date in
  exists days : list Z,
    getDaysInMonth tz date
    = (repeat None (Z.to_nat (weekday_of_first year month))
       ++ map (fun t => Some (Some t)) days)%list
    /\ map (fun t => (getFullYear tz t, getMonth tz t, getDate tz t)) days
       = map (fun i => (year, month, Z.of_nat i))
             (seq 1 (Z.to_nat (days_in_month year month))).

(** A month that the host can display: the time to which the host resolves
    local midnight of each of its days is within the range of [Date], and is
    a time of that same day on the host (it is not when a zone transition
    skips the whole day). *)
Definition month_displayable (tz : Zone) (y m : Z) : bool :=
  forallb (fun i =>
             let t := local_midnight tz y m (Z.of_nat i) in
             ((Z.abs t <=? 8640000000000000)%Z
              && (Day (LocalTime tz t) =? day_of_civil y m (Z.of_nat i))%Z)%bool)
          (seq 1 (Z.to_nat (days_in_month y m))).

(** The day numbers that the cells of a grid show. *)
Definition day_numbers (tz : Zone) (grid : list (option Date)) : list (option Z) :=
  map (fun slot => match slot with
                   | Some day => Date_getDate tz day
                   | None => None
                   end) grid.

(** Europe/Paris in 2024: one hour ahead of UTC, two hours from 31 March
    01:00 UTC to 27 October 01:00 UTC. *)
Definition Europe_Paris_2024 : Zone :=
  zoneOf 60 [(1711846800000, 120); (1729990800000, 60)].

(** Pacific/Apia at the end of 2011: ten hours behind UTC until 30 December
    10:00 UTC, fourteen hours ahead from then on; the local date goes from
    29 December to 31 December. *)
Definition Pacific_Apia_2011 : Zone :=
  zoneOf (-600) [(1325239200000, 840)].


(** A string that starts with a decimal digit. *)
Definition starts_with_digit (s : string) : Prop :=
  match s with
  | String c _ => digit_of c <> None
  | EmptyString => False
  end.

(** A [Date] that falls on the same calendar day, in the host time zone, as
    the time value [t]: it is valid and on the same local day number. *)
Definition on_same_day (tz : Zone) (d : Date) (t : Z) : bool :=
  match d with
  | Some t1 => (Day (LocalTime tz t1) =? Day (LocalTime tz t))%Z
  | None => false
  end.

(* ------------------------------------------------------------------ *)
(** ** CalendarView: navigation, highlighting and layout *)

(** The hour and minute getters. *)
Definition getHours (tz : Zone) (t : Z) : Z := HourFromTime (LocalTime tz t).
Definition getMinutes (tz : Zone) (t : Z) : Z := MinFromTime (LocalTime tz t).
Definition getSeconds (tz : Zone) (t : Z) : Z := SecFromTime (LocalTime tz t).
Definition getMilliseconds (tz : Zone) (t : Z) : Z := msFromTime (LocalTime tz t).

(** [new Date(year, month)]: the day of the month defaults to 1.  On an
    Invalid Date the getters give NaN and the new date is invalid too. *)
Definition nextMonth (tz : Zone) (currentMonth : Date) : Date :=
  match currentMonth with
  | Some t => Date_ymd tz (getFullYear tz t) (getMonth tz t + 1) 1
  | None => None
  end.

Definition prevMonth (tz : Zone) (currentMonth : Date) : Date :=
  match currentMonth with
  | Some t => Date_ymd tz (getFullYear tz t) (getMonth tz t - 1) 1
  | None => None
  end.

Definition monthNames : list string :=
  ["January"; "February"; "March"; "April"; "May"; "June";
   "July"; "August"; "September"; "October"; "November"; "December"]%list.

(** The name in the heading, [monthNames[currentMonth.getMonth()]]:
    [None] is [undefined]. *)
Definition headingMonth (tz : Zone) (currentMonth : Z) : option string :=
  nth_error monthNames (Z.to_nat (getMonth tz currentMonth)).

(** [isToday(date)] at the instant [now]; [isSelected(date)] for the
    [selectedDate] prop, which is a [Date] or [null]. *)
Definition isToday (tz : Zone) (now : Z) (date : Date) : bool :=
  (toDateString tz date =? toDateString tz (Some now))%string.

Definition isSelected (tz : Zone) (selectedDate : option Date) (date : Date) : bool :=
  match selectedDate with
  | Some sel => (toDateString tz date =? toDateString tz sel)%string
  | None => false
  end.

(** The three looks of a day number. *)
Inductive DayStyle : Type :=
| TodayStyle
| SelectedStyle
| PlainStyle.

Definition dayStyle (tz : Zone) (now : Z) (selectedDate : option Date) (day : Date) : DayStyle :=
  if isToday tz now day then TodayStyle
  else if isSelected tz selectedDate day then SelectedStyle
  else PlainStyle.

(** The header row of the grid, and the column in which the seven-column
    grid lays out its cell number [index]. *)
Definition weekdayHeader : list string :=
  ["Sun"; "Mon"; "Tue"; "Wed"; "Thu"; "Fri"; "Sat"]%list.

Definition gridColumn (index : nat) : nat := Nat.modulo index 7.

(** The index in [days] of the cell of day [d] of the month shown. *)
Definition cellIndex (tz : Zone) (date d : Z) : nat :=
  (Z.to_nat (weekday_of_first (getFullYear tz date) (getMonth tz date))
   + Z.to_nat d - 1)%nat.

(* ------------------------------------------------------------------ *)
(** ** Vocabulary of the further properties *)

(** A string in which the character [c] occurs. *)
Fixpoint has_char (c : ascii) (s : string) : bool :=
  match s with
  | EmptyString => false
  | String a r => (Ascii.eqb a c || has_char c r)%bool
  end.

(** The answer of the categories request arriving. *)
Definition is_categories_response (a : FormAction) : bool :=
  match a with
  | CategoriesResponse _ => true
  | _ => false
  end.

(** What a [datetime-local] input holds for the fields of a local time. *)
Definition datetime_local (y mo d h mi : Z) : string :=
  (pad4 y ++ "-" ++ pad2 mo ++ "-" ++ pad2 d ++ "T" ++ pad2 h ++ ":" ++ pad2 mi)%string.


(** A meeting on 14 February 2024 at 10:00 UTC, and one on 27 October 2024
    at 10:00 local time. *)
Definition meeting : CalendarEvent :=
  {| event_id := "evt-2"; event_title := "Review";
     start_time := "2024-02-14T10:00:00.000Z"; all_day := false |}.


(* ================================================================== *)
(** * Part II. The properties *)
(* ================================================================== *)

Open Scope list_scope.

(** ** The built-ins on known values *)

Example trim_both_ends : trim "  a b  " = "a b".
Proof. reflexivity. Qed.

Example trim_whitespace_only : trim "   " = "".
Proof. reflexivity. Qed.

Example Set_of_keeps_first_occurrences :
  Set_of ["Work"; "Home"; "Work"; "Pets"; "Home"] = ["Work"; "Home"; "Pets"].
Proof. reflexivity. Qed.

Example isoString_2024 : isoString 1705314645123 = "2024-01-15T10:30:45.123Z".
Proof. vm_compute. reflexivity. Qed.

Example isoString_before_year_zero :
  isoString (-62198755200000) = "-000001-01-01T00:00:00.000Z".
Proof. vm_compute. reflexivity. Qed.

Example toDateString_2024 :
  toDateString (-300) (Some 1705314645123) = "Mon Jan 15 2024".
Proof. vm_compute. reflexivity. Qed.

Example toDateString_last_day : toDateString 0 (Some 8640000000000000) = "Sat Sep 13 275760".
Proof. vm_compute. reflexivity. Qed.

Example Date_of_string_local :
  Date_of_string 60 "2024-01-15T10:30" = Some 1705311000000%Z.
Proof. vm_compute. reflexivity. Qed.

Example Date_of_string_utc :
  Date_of_string 60 "2024-01-15T10:30:00.000Z" = Some 1705314600000%Z.
Proof. vm_compute. reflexivity. Qed.

Example Date_of_string_date_only :
  Date_of_string (-300) "2024-01-15" = Some 1705276800000%Z.
Proof. vm_compute. reflexivity. Qed.

Example Date_of_string_garbage : Date_of_string 0 "tomorrow" = None.
Proof. reflexivity. Qed.

(** The shorter dates and the expanded years of the format. *)
Example Date_of_string_short_forms :
  Date_of_string (-300) "2024-02" = Some 1706745600000%Z
  /\ Date_of_string (-300) "2024" = Some 1704067200000%Z
  /\ Date_of_string (-300) "+002024-02-14T10:00:00Z" = Some 1707904800000%Z
  /\ Date_of_string (-300) "-000000-01-01T00:00:00Z" = None
  /\ Date_of_string 0 "+275760-09-13T00:00:00Z" = Some 8640000000000000%Z
  /\ Date_of_string 0 "+275760-09-13T00:00:00.001Z" = None.
Proof.
  repeat (match goal with |- _ /\ _ => split end); vm_compute; reflexivity.
Qed.

(** Strings near the format: a fraction of six digits, a space before the
    time, an offset with or without its colon.  Without an offset, the time
    is local. *)
Example Date_of_string_near_forms :
  Date_of_string (-300) "2024-02-14T10:00:00.123456" = Some 1707922800123%Z
  /\ Date_of_string (-300) "2024-02-14 10:00:00" = Some 1707922800000%Z
  /\ Date_of_string (-300) "2024-02-14T10:00:00+05:30" = Some 1707885000000%Z
  /\ Date_of_string (-300) "2024-02-14T10:00:00+0530" = Some 1707885000000%Z
  /\ Date_of_string (-300) "2024-02-14T10:00:00.5z" = Some 1707904800500%Z
  /\ Date_of_string (-300) "2024-13-01" = None.
Proof.
  repeat (match goal with |- _ /\ _ => split end); vm_compute; reflexivity.
Qed.

Example Date_ymd_two_digit_year :
  option_map isoString (Date_ymd 0 99 11 1) = Some "1999-12-01T00:00:00.000Z".
Proof. vm_compute. reflexivity. Qed.

Example Date_ymd_day_zero :
  option_map isoString (Date_ymd 0 2024 2 0) = Some "2024-02-29T00:00:00.000Z".
Proof. vm_compute. reflexivity. Qed.

Example match_session_id_first :
  match_session_id "#session_id=abc&next=%2F" = Some "abc".
Proof. reflexivity. Qed.

Example match_session_id_skips_empty :
  match_session_id "#session_id=&session_id=zz" = Some "zz".
Proof. reflexivity. Qed.

Example match_session_id_none : match_session_id "#section-2" = None.
Proof. reflexivity. Qed.

(** ** Sets of strings in insertion order *)

(** [includes] decides membership. *)
Lemma includes_In (arr : list string) (x : string) :
  includes arr x = true <-> In x arr.
Proof.
  unfold includes. rewrite existsb_exists. split.
  - intros [y [Hy E]]. apply String.eqb_eq in E. subst y. exact Hy.
  - intros H. exists x. split; [exact H | apply String.eqb_refl].
Qed.

Lemma includes_not_In (arr : list string) (x : string) :
  includes arr x = false <-> ~ In x arr.
Proof.
  rewrite <- includes_In. destruct (includes arr x); split; congruence.
Qed.

(** Adding a new element at the end keeps a list free of duplicates. *)
Lemma NoDup_snoc (l : list string) (x : string) :
  NoDup l -> ~ In x l -> NoDup (l ++ [x]).
Proof.
  intros Hl Hx. induction Hl as [|y l Hy Hl IH]; simpl.
  - constructor; [intros [] | constructor].
  - constructor.
    + rewrite in_app_iff. simpl. intros [H | [H | []]].
      * exact (Hy H).
      * apply Hx. left. symmetry. exact H.
    + apply IH. intros H. apply Hx. right. exact H.
Qed.

Lemma Set_add_NoDup (s : list string) (x : string) :
  NoDup s -> NoDup (Set_add s x).
Proof.
  intros Hs. unfold Set_add. destruct (includes s x) eqn:E.
  - exact Hs.
  - apply NoDup_snoc; [exact Hs | apply includes_not_In; exact E].
Qed.

Lemma Set_add_In (s : list string) (x y : string) :
  In y (Set_add s x) <-> In y s \/ y = x.
Proof.
  unfold Set_add. destruct (includes s x) eqn:E.
  - apply includes_In in E. split; [auto | intros [H | ->]; assumption].
  - rewrite in_app_iff. simpl. intuition congruence.
Qed.

Lemma Set_add_extends (s : list string) (x : string) :
  exists rest, Set_add s x = s ++ rest.
Proof.
  unfold Set_add. destruct (includes s x).
  - exists []. symmetry. apply app_nil_r.
  - exists [x]. reflexivity.
Qed.

(** Adding elements one by one keeps what is there, in place, adds every new
    element and never adds one twice. *)
Lemma fold_Set_add_NoDup (l acc : list string) :
  NoDup acc -> NoDup (fold_left Set_add l acc).
Proof.
  revert acc. induction l as [|x l IH]; intros acc Hacc; simpl.
  - exact Hacc.
  - apply IH, Set_add_NoDup, Hacc.
Qed.

Lemma fold_Set_add_In (l acc : list string) (y : string) :
  In y (fold_left Set_add l acc) <-> In y acc \/ In y l.
Proof.
  revert acc. induction l as [|x l IH]; intros acc; simpl.
  - tauto.
  - rewrite IH, Set_add_In. intuition congruence.
Qed.

Lemma fold_Set_add_extends (l acc : list string) :
  exists rest, fold_left Set_add l acc = acc ++ rest.
Proof.
  revert acc. induction l as [|x l IH]; intros acc; simpl.
  - exists []. symmetry. apply app_nil_r.
  - destruct (Set_add_extends acc x) as [r1 E1].
    destruct (IH (Set_add acc x)) as [r2 E2].
    exists (r1 ++ r2). rewrite E2, E1. symmetry. apply app_assoc.
Qed.

Lemma Set_of_NoDup (l : list string) : NoDup (Set_of l).
Proof. apply fold_Set_add_NoDup. constructor. Qed.

Lemma Set_of_In (l : list string) (y : string) : In y (Set_of l) <-> In y l.
Proof. unfold Set_of. rewrite fold_Set_add_In. simpl. tauto. Qed.

Lemma Set_of_defaults (userCategories : list string) :
  exists rest,
    Set_of (defaultCategories ++ userCategories) = defaultCategories ++ rest.
Proof.
  unfold Set_of. rewrite fold_left_app.
  change (fold_left Set_add defaultCategories []) with defaultCategories.
  apply fold_Set_add_extends.
Qed.

Lemma NoDup_count_once (l : list string) (x : string) :
  NoDup l -> In x l -> count_occ string_dec l x = 1%nat.
Proof.
  intros Hl Hx.
  pose proof (proj1 (NoDup_count_occ string_dec l) Hl x) as Hle.
  pose proof (proj1 (count_occ_In string_dec l x) Hx) as Hgt.
  lia.
Qed.

Lemma defaultCategories_NoDup : NoDup defaultCategories.
Proof.
  unfold defaultCategories.
  repeat (constructor; [simpl; intuition discriminate |]).
  constructor.
Qed.

(** ** Categories *)

(** C3. On a successful answer of GET /api/tasks/categories, both
    [fetchCategories] (of the form and of the dashboard) set the list of
    available categories to the union of the six default categories and the
    returned ones: the defaults come first, in their fixed order; every
    default and every returned category occurs exactly once; nothing else
    occurs. *)
Theorem C3_fetchCategories_union :
  forall (userCategories prev : list string) (st : TaskForm),
    let cats := availableCategories (fetchCategories (Some userCategories) st) in
    Dashboard_fetchCategories (Some userCategories) prev = cats
    /\ (exists rest, cats = defaultCategories ++ rest)
    /\ firstn 6 cats = ["General"; "Work"; "Personal"; "Health"; "Shopping"; "Finance"]
    /\ (forall c, In c cats <-> In c defaultCategories \/ In c userCategories)
    /\ (forall c, In c defaultCategories \/ In c userCategories ->
                  count_occ string_dec cats c = 1%nat)
    /\ NoDup cats.
Proof.
  intros userCategories prev st cats.
  assert (E : cats = Set_of (defaultCategories ++ userCategories)) by reflexivity.
  assert (HIn : forall c, In c cats <-> In c defaultCategories \/ In c userCategories).
  { intros c. rewrite E, Set_of_In. apply in_app_iff. }
  assert (HND : NoDup cats) by (rewrite E; apply Set_of_NoDup).
  destruct (Set_of_defaults userCategories) as [rest Hrest].
  repeat split.
  - exists rest. rewrite E. exact Hrest.
  - rewrite E, Hrest. reflexivity.
  - apply HIn.
  - apply HIn.
  - intros c Hc. apply NoDup_count_once; [exact HND | apply HIn; exact Hc].
  - exact HND.
Qed.

(** C10. The list of available categories of the form never holds a
    duplicate, whatever the user does and whatever the categories request
    answers; [handleAddCategory] appends the trimmed name exactly when it is
    not empty and not yet in the list, and otherwise leaves the list alone. *)
Theorem C10_availableCategories_NoDup :
  forall (fd : FormData) (acts : list FormAction),
    NoDup (availableCategories (formRun (initialTaskForm fd) acts))
    /\ (forall st,
          availableCategories (handleAddCategory st) =
          if negb (trim (newCategory st) =? "")
             && negb (includes (availableCategories st) (trim (newCategory st)))
          then availableCategories st ++ [trim (newCategory st)]
          else availableCategories st)%list
    /\ (forall st r,
          availableCategories (fetchCategories (Some r) st) =
          Set_of (defaultCategories ++ r)).
Proof.
  intros fd acts. split; [| split].
  - assert (Hstep : forall st a,
               NoDup (availableCategories st) ->
               NoDup (availableCategories (formStep st a))).
    { intros st a Hst. destruct a; simpl; try exact Hst.
      - destruct (value =? "_add_new_"); exact Hst.
      - unfold handleAddCategory.
        destruct (truthy (trim (newCategory st))); simpl; [| exact Hst].
        destruct (includes (availableCategories st) (trim (newCategory st))) eqn:E;
          simpl; [exact Hst |].
        apply NoDup_snoc; [exact Hst | apply includes_not_In; exact E].
      - destruct response as [r |]; simpl; [apply Set_of_NoDup | exact Hst]. }
    unfold formRun.
    assert (Hinit : NoDup (availableCategories (initialTaskForm fd)))
      by apply defaultCategories_NoDup.
    revert Hinit. generalize (initialTaskForm fd).
    induction acts as [|a acts IH]; intros st Hst; simpl.
    + exact Hst.
    + apply IH, Hstep, Hst.
  - intros st. unfold handleAddCategory, truthy.
    destruct (negb (trim (newCategory st) =? "")
              && negb (includes (availableCategories st) (trim (newCategory st))));
      reflexivity.
  - reflexivity.
Qed.

(** ** Authentication *)

(** C4. What [App] renders is a function of the state of the container,
    which is exactly one of loading, authenticated-as(user) and anonymous:
    the loading screen exactly while [loading] is true; otherwise the
    dashboard exactly when [user] is not null and the login page exactly when
    it is null. *)
Theorem C4_render_by_state :
  forall w : World,
    App (user w) (loading w) = screen_of (authState w)
    /\ (App (user w) (loading w) = LoadingScreen <-> loading w = true)
    /\ (forall u, App (user w) (loading w) = DashboardScreen u
                  <-> loading w = false /\ user w = Some u)
    /\ (App (user w) (loading w) = LoginPageScreen
        <-> loading w = false /\ user w = None)
    /\ (authState w = StLoading <-> loading w = true)
    /\ (forall u, authState w = StAuthenticated u
                  <-> loading w = false /\ user w = Some u)
    /\ (authState w = StAnonymous <-> loading w = false /\ user w = None).
Proof.
  intros [u l loc tr]. unfold App, authState. simpl.
  destruct l, u as [u0 |]; simpl; repeat split;
    try (intros; intuition (try discriminate; try congruence)); try congruence.
Qed.

(** C5. [logout] returns normally and leaves [user] null, whether the
    POST /api/auth/logout request succeeds or fails; so the dashboard is
    not rendered afterwards. *)
Theorem C5_logout_ends_anonymous :
  forall (be : Backend) (w : World),
    let '(r, w') := logout be w in
    r = Returned tt
    /\ user w' = None
    /\ requests (trace w') = requests (trace w) ++ [PostLogout]
    /\ last (trace w') (SetLoading true) = SetUser None
    /\ (forall u, App (user w') (loading w') <> DashboardScreen u).
Proof.
  intros be w. unfold logout, try_catch, bind, axios, setUser, console_error, emit.
  destruct (logout_response be) as [[] |]; simpl.
  all: repeat split;
    try (unfold requests; rewrite !flat_map_app; simpl; rewrite ?app_nil_r; reflexivity);
    try (rewrite !last_last; reflexivity);
    try (intros u; unfold App; destruct (loading w); discriminate).
Qed.

(** C7 (as amended). On load the provider sends exactly one request: with a
    session id in the fragment, POST /api/auth/session, and when that
    succeeds it stores the user and then replaces the address by the bare
    path, while on a failure it leaves the address as it is; without a session
    id, GET /api/auth/me, storing the user or null.  In every case [initAuth]
    returns normally and sets [loading] to [false] exactly once, as its last
    effect. *)
Theorem C7_initAuth_reconstructs_user :
  forall (be : Backend) (loc : Location),
    let '(r, w) := initAuth be (initialWorld loc) in
    r = Returned tt
    /\ loading w = false
    /\ loading_cleared (trace w) = 1%nat
    /\ last (trace w) (SetLoading true) = SetLoading false
    /\ match match_session_id (hash loc) with
       | Some sid =>
           requests (trace w) = [PostSession sid]
           /\ match session_response be sid with
              | Some u =>
                  user w = Some u
                  /\ location w = {| pathname := pathname loc; search := ""; hash := "" |}
                  /\ trace w = [Http (PostSession sid); SetUser (Some u);
                                ReplaceState (pathname loc); SetLoading false]
              | None =>
                  user w = None
                  /\ location w = loc
                  /\ trace w = [Http (PostSession sid);
                                ConsoleError "Session processing error:";
                                ConsoleError "Session processing failed:";
                                SetLoading false]
              end
       | None =>
           requests (trace w) = [GetMe]
           /\ user w = me_response be
           /\ location w = loc
           /\ trace w = [Http GetMe; SetUser (me_response be); SetLoading false]
       end.
Proof.
  intros be loc.
  unfold initAuth, bind, get_location, initialWorld. simpl.
  destruct (match_session_id (hash loc)) as [sid |].
  - unfold try_catch, processSession, try_catch, bind, axios, setUser, ret, throw,
      console_error, replaceState, get_location, setLoading, emit. simpl.
    destruct (session_response be sid) as [u |]; simpl; repeat split.
  - unfold checkAuth, try_catch, bind, axios, setUser, setLoading, emit. simpl.
    destruct (me_response be) as [u |]; simpl; repeat split.
Qed.

(** C7, counterexample.  With the fragment [#session_id=abc] and a backend
    that rejects the exchange, the fragment is still in the address when
    [initAuth] is done. *)
Lemma C7_fragment_kept_on_failure :
  ~ initAuth_as_stated
      {| logout_response := None;
         session_response := fun _ => None;
         me_response := None |}
      {| pathname := "/dashboard"; search := ""; hash := "#session_id=abc" |}.
Proof.
  unfold initAuth_as_stated. vm_compute. intros [[_ H] _]. discriminate H.
Qed.

(** ** The task form *)

(** [handleSubmit] passes the text fields on unchanged. *)
Lemma handleSubmit_fields (tz : Zone) (fd : FormData) (sd : SubmitData) :
  handleSubmit tz fd = Returned sd ->
  sd_title sd = title fd /\ sd_description sd = description fd
  /\ sd_category sd = category fd /\ sd_priority sd = priority fd.
Proof.
  unfold handleSubmit.
  destruct (submitTimestamp tz (due_date fd)); [| discriminate].
  destruct (submitTimestamp tz (reminder fd)); [| discriminate].
  intros H. injection H as <-. simpl. auto.
Qed.

(** The [required] attribute keeps the empty title out, and nothing more. *)
Lemma submitForm_title_not_empty (tz : Zone) (st : TaskForm) (sd : SubmitData) :
  submitForm tz st = Some (Returned sd) -> sd_title sd <> "".
Proof.
  unfold submitForm. destruct (title (formData st) =? "")%string eqn:E; [discriminate |].
  intros H. injection H as H. apply handleSubmit_fields in H.
  destruct H as [-> _]. apply String.eqb_neq. exact E.
Qed.

(** What one action, and then a run of actions, keeps. *)
Lemma formStep_priority (st : TaskForm) (a : FormAction) :
  action_offered st a = true ->
  In (priority (formData st)) priorities ->
  In (priority (formData (formStep st a))) priorities.
Proof.
  intros Ha Hp. destruct a; simpl in *; try exact Hp.
  - destruct (value =? "_add_new_")%string; exact Hp.
  - exact (proj1 (includes_In priorities value) Ha).
  - unfold handleAddCategory.
    destruct (truthy (trim (newCategory st))
              && negb (includes (availableCategories st) (trim (newCategory st))));
      exact Hp.
  - destruct response; exact Hp.
Qed.

Lemma formStep_category (st : TaskForm) (a : FormAction) :
  touches_category a = false ->
  category (formData (formStep st a)) = category (formData st).
Proof.
  intros Ha. destruct a; simpl in *; try reflexivity; try discriminate.
  destruct response; reflexivity.
Qed.

Lemma formRun_priority (acts : list FormAction) (st : TaskForm) :
  actions_offered st acts = true ->
  In (priority (formData st)) priorities ->
  In (priority (formData (formRun st acts))) priorities.
Proof.
  revert st. induction acts as [|a acts IH]; intros st Hoff Hp; simpl in *.
  - exact Hp.
  - apply andb_true_iff in Hoff. destruct Hoff as [Ha Hrest].
    apply IH; [exact Hrest | apply formStep_priority; assumption].
Qed.

Lemma formRun_category (acts : list FormAction) (st : TaskForm) :
  forallb (fun a => negb (touches_category a)) acts = true ->
  category (formData (formRun st acts)) = category (formData st).
Proof.
  revert st. induction acts as [|a acts IH]; intros st Hno; simpl in *.
  - reflexivity.
  - apply andb_true_iff in Hno. destruct Hno as [Ha Hrest].
    rewrite (IH _ Hrest). apply formStep_category.
    apply negb_true_iff. exact Ha.
Qed.

(** C6. A form opened without a task starts with category "General" and
    priority "Medium"; the priority select offers exactly Low, Medium and
    High; so whatever the user does with the controls, the submitted priority
    is one of the three, and the submitted category is "General" when the
    user did not touch the category. *)
Theorem C6_new_task_defaults :
  forall (tz : Zone) (acts : list FormAction) (sd : SubmitData),
    actions_offered (initialTaskForm newTaskFormData) acts = true ->
    submitForm tz (formRun (initialTaskForm newTaskFormData) acts)
      = Some (Returned sd) ->
    initialFormData tz None = Returned newTaskFormData
    /\ category newTaskFormData = "General"
    /\ priority newTaskFormData = "Medium"
    /\ priorityOptions = ["Low"; "Medium"; "High"]
    /\ In (sd_priority sd) ["Low"; "Medium"; "High"]
    /\ (forallb (fun a => negb (touches_category a)) acts = true ->
        sd_category sd = "General").
Proof.
  intros tz acts sd Hoff Hsub.
  unfold submitForm in Hsub.
  destruct (title (formData (formRun (initialTaskForm newTaskFormData) acts)) =? "")%string;
    [discriminate |].
  injection Hsub as Hsub. apply handleSubmit_fields in Hsub.
  destruct Hsub as (_ & _ & Hcat & Hprio).
  repeat split.
  - rewrite Hprio. apply formRun_priority; [exact Hoff |].
    simpl. auto.
  - intros Hno. rewrite Hcat. rewrite (formRun_category acts _ Hno). reflexivity.
Qed.

Lemma C6_new_task_defaults_witness :
  actions_offered (initialTaskForm newTaskFormData)
    [ChangeTitle "Buy milk"; ChangePriority "High"] = true
  /\ submitForm 0 (formRun (initialTaskForm newTaskFormData)
                     [ChangeTitle "Buy milk"; ChangePriority "High"])
     = Some (Returned
         {| sd_title := "Buy milk"; sd_description := ""; sd_category := "General";
            sd_priority := "High"; sd_due_date := None; sd_reminder := None |})
  /\ In "High" ["Low"; "Medium"; "High"]
  /\ "General" = "General".
Proof.
  split; [reflexivity |]. split; [reflexivity |].
  pose proof (C6_new_task_defaults 0
       [ChangeTitle "Buy milk"; ChangePriority "High"]
       {| sd_title := "Buy milk"; sd_description := ""; sd_category := "General";
          sd_priority := "High"; sd_due_date := None; sd_reminder := None |}) as H.
  split; [apply H; reflexivity | reflexivity].
Defined.

(** C2, at the failing input.  A title that is one space passes the
    [required] check; [handleSubmit] hands it to [onSubmit] as it is, although
    nothing is left of it after trimming. *)
Theorem C2_whitespace_title_submitted :
  exists sd : SubmitData,
    submitForm 0 (formRun (initialTaskForm newTaskFormData) [ChangeTitle " "])
      = Some (Returned sd)
    /\ sd_title sd = " "
    /\ trim (sd_title sd) = "".
Proof.
  eexists. split; [reflexivity |]. split; reflexivity.
Qed.

(** ** The calendar of the [Date] built-in *)

Open Scope Z_scope.

(** Case analysis on the comparisons that the closed forms branch on. *)
Ltac split_ifs :=
  repeat match goal with
  | |- context [if ?b then _ else _] =>
    match b with
    | (?x <? ?y) => destruct (Z.ltb_spec x y)
    | (?x <=? ?y) => destruct (Z.leb_spec x y)
    end
  | H : context [if ?b then _ else _] |- _ =>
    match b with
    | (?x <? ?y) => destruct (Z.ltb_spec x y)
    | (?x <=? ?y) => destruct (Z.leb_spec x y)
    end
  end.

(** Within an era, the year of the era, the day of the year, the month and
    the day of the month are in their ranges. *)
Lemma yoe_range doe : 0 <= doe < 146097 ->
  0 <= yoe_of doe <= 399 /\ 0 <= doy_of doe <= 365.
Proof.
  intros H. unfold doy_of, yoe_of.
  Z.div_mod_to_equations; lia.
Qed.

Lemma mp_range doy : 0 <= doy <= 365 -> 0 <= mp_of doy <= 11 /\ 1 <= dom_of doy <= 31.
Proof.
  intros H. unfold dom_of, mp_of.
  Z.div_mod_to_equations; lia.
Qed.

Lemma civil_bounds z y m d : civil_of_day z = (y, m, d) -> 0 <= m <= 11 /\ 1 <= d <= 31.
Proof.
  unfold civil_of_day. cbv zeta. intros H. injection H as Hy Hm Hd.
  assert (Hdoe : 0 <= (z + 719468) mod 146097 < 146097) by (apply Z.mod_pos_bound; lia).
  destruct (yoe_range _ Hdoe) as [_ Hdoy].
  destruct (mp_range _ Hdoy) as [Hmp Hdom].
  split_ifs; lia.
Qed.

(** [day_of_civil] inverts [civil_of_day]. *)
Lemma day_of_civil_of_day z y m d : civil_of_day z = (y, m, d) -> day_of_civil y m d = z.
Proof.
  unfold civil_of_day. cbv zeta. intros H. injection H as Hy Hm Hd.
  assert (Hdoe : 0 <= (z + 719468) mod 146097 < 146097) by (apply Z.mod_pos_bound; lia).
  destruct (yoe_range _ Hdoe) as [Hyoe Hdoy].
  destruct (mp_range _ Hdoy) as [Hmp Hdom].
  pose proof (Z.div_mod (z + 719468) 146097 ltac:(lia)) as Hz.
  unfold day_of_civil.
  set (doe := (z + 719468) mod 146097) in *.
  set (era := (z + 719468) / 146097) in *.
  assert (Hdoy_eq : doy_of doe
                    = doe - (365 * yoe_of doe + yoe_of doe / 4 - yoe_of doe / 100))
    by reflexivity.
  assert (Hdom_eq : dom_of (doy_of doe)
                    = doy_of doe - (153 * mp_of (doy_of doe) + 2) / 5 + 1)
    by reflexivity.
  set (yoe := yoe_of doe) in *. set (doy := doy_of doe) in *. set (mp := mp_of doy) in *.
  set (dm := dom_of doy) in *.
  clearbody dm mp doy yoe era doe.
  subst y m d.
  split_ifs; (Z.div_mod_to_equations; lia).
Qed.

(** [MakeDay] on a month of the year, and on the fields of a time value. *)
Lemma MakeDay_civil y m d : 0 <= m <= 11 -> MakeDay y m d = day_of_civil y m d.
Proof.
  intros H. unfold MakeDay.
  rewrite (Z.div_small m 12), (Z.mod_small m 12), Z.add_0_r by lia.
  unfold day_of_civil. lia.
Qed.

Lemma civil_of_Day t :
  civil_of_day (Day t) = (YearFromTime t, MonthFromTime t, DateFromTime t).
Proof.
  unfold YearFromTime, MonthFromTime, DateFromTime.
  destruct (civil_of_day (Day t)) as [[y m] d]. reflexivity.
Qed.

Lemma MakeDay_fields t :
  MakeDay (YearFromTime t) (MonthFromTime t) (DateFromTime t) = Day t.
Proof.
  pose proof (civil_of_Day t) as E.
  destruct (civil_bounds _ _ _ _ E) as [Hm _].
  rewrite MakeDay_civil by exact Hm.
  apply day_of_civil_of_day. exact E.
Qed.

(** A time value is made of its fields; without the seconds and
    milliseconds it is cut to the minute. *)
Lemma time_fields t :
  MakeDate (Day t)
    (MakeTime (HourFromTime t) (MinFromTime t) (SecFromTime t) (msFromTime t)) = t.
Proof.
  unfold MakeDate, MakeTime, Day, HourFromTime, MinFromTime, SecFromTime, msFromTime,
    msPerDay, msPerHour, msPerMinute, msPerSecond.
  Z.div_mod_to_equations; lia.
Qed.

Lemma minute_fields t :
  MakeDate (Day t) (MakeTime (HourFromTime t) (MinFromTime t) 0 0)
  = t - t mod msPerMinute.
Proof.
  unfold MakeDate, MakeTime, Day, HourFromTime, MinFromTime,
    msPerDay, msPerHour, msPerMinute, msPerSecond.
  Z.div_mod_to_equations; lia.
Qed.

(** The time values of the years 0000 to 9999. *)
Lemma year_range t :
  -62167219200000 <= t <= 253402300799999 -> 0 <= YearFromTime t <= 9999.
Proof.
  intros H.
  pose proof (civil_of_Day t) as E.
  destruct (civil_bounds _ _ _ _ E) as [Hm Hd].
  pose proof (day_of_civil_of_day _ _ _ _ E) as Hz.
  assert (Hday : -719528 <= Day t <= 2932896).
  { unfold Day, msPerDay. Z.div_mod_to_equations; lia. }
  rewrite <- Hz in Hday. clear Hz E H.
  unfold day_of_civil in Hday.
  set (y := YearFromTime t) in *. set (m := MonthFromTime t) in *. set (d := DateFromTime t) in *.
  clearbody y m d.
  split_ifs; (Z.div_mod_to_equations; lia).
Qed.

(** Conversely, the day of the era of a year and day of the year, and the day
    of the year of a month and day of the month, are read back as such; day
    365 exists in the years that end on a leap day only. *)
Lemma doe_inverse yoe doy :
  0 <= yoe <= 399 -> 0 <= doy <= 365 ->
  (doy = 365 -> (yoe + 1) mod 4 = 0 /\ ((yoe + 1) mod 100 <> 0 \/ yoe = 399)) ->
  let doe := yoe * 365 + yoe / 4 - yoe / 100 + doy in
  0 <= doe < 146097 /\ yoe_of doe = yoe /\ doy_of doe = doy.
Proof.
  intros Hy Hd Hleap doe.
  assert (H : 0 <= doe < 146097 /\ yoe_of doe = yoe).
  { subst doe. unfold yoe_of.
    assert (Hc : yoe / 100 = 0 \/ yoe / 100 = 1 \/ yoe / 100 = 2 \/ yoe / 100 = 3)
      by (Z.div_mod_to_equations; lia).
    assert (Hl : doy < 365 \/ doy = 365) by lia.
    destruct Hl as [Hl|Hl]; [clear Hleap|destruct (Hleap Hl) as [H4 H100]; clear Hleap];
    destruct Hc as [Hc|[Hc|[Hc|Hc]]]; rewrite Hc;
    (Z.div_mod_to_equations; lia). }
  destruct H as [Hr Hy']. repeat split; try lia; try assumption.
  unfold doy_of. rewrite Hy'. subst doe. lia.
Qed.

Lemma mp_inverse mp d :
  0 <= mp <= 11 -> 1 <= d <= 31 ->
  (mp = 1 \/ mp = 3 \/ mp = 6 \/ mp = 8 -> d <= 30) ->
  (mp = 11 -> d <= 29) ->
  let doy := (153 * mp + 2) / 5 + d - 1 in
  0 <= doy <= 365 /\ mp_of doy = mp /\ dom_of doy = d /\ (doy = 365 -> mp = 11 /\ d = 29).
Proof.
  intros Hmp Hd H30 H29 doy. subst doy. unfold dom_of, mp_of.
  Z.div_mod_to_equations; lia.
Qed.

Lemma InLeapYear_spec y :
  InLeapYear y = true <-> y mod 4 = 0 /\ (y mod 100 <> 0 \/ y mod 400 = 0).
Proof.
  unfold InLeapYear.
  rewrite andb_true_iff, orb_true_iff, negb_true_iff, Z.eqb_neq, !Z.eqb_eq. tauto.
Qed.

Lemma days_in_month_cases y m :
  0 <= m <= 11 ->
  (m = 1 /\ days_in_month y m = (if InLeapYear y then 29 else 28))
  \/ ((m = 3 \/ m = 5 \/ m = 8 \/ m = 10) /\ days_in_month y m = 30)
  \/ ((m = 0 \/ m = 2 \/ m = 4 \/ m = 6 \/ m = 7 \/ m = 9 \/ m = 11) /\ days_in_month y m = 31).
Proof.
  intros H. unfold days_in_month.
  destruct (Z.eqb_spec m 1); [left; auto|].
  destruct (Z.eqb_spec m 3); [right; left; auto|].
  destruct (Z.eqb_spec m 5); [right; left; auto|].
  destruct (Z.eqb_spec m 8); [right; left; auto|].
  destruct (Z.eqb_spec m 10); [right; left; auto|].
  right; right. split; [lia | reflexivity].
Qed.

(** [civil_of_day] inverts [day_of_civil] on the dates of the calendar. *)
Lemma civil_of_day_of_civil y m d :
  0 <= m <= 11 -> 1 <= d <= days_in_month y m ->
  civil_of_day (day_of_civil y m d) = (y, m, d).
Proof.
  intros Hm Hd.
  unfold day_of_civil.
  set (y' := if m <=? 1 then y - 1 else y).
  set (mp := if m <=? 1 then m + 10 else m - 2).
  assert (Hmp : 0 <= mp <= 11) by (subst mp; split_ifs; lia).
  pose proof (days_in_month_cases y m Hm) as Hdim.
  assert (Hd31 : 1 <= d <= 31) by (destruct (InLeapYear y); lia).
  assert (H30 : mp = 1 \/ mp = 3 \/ mp = 6 \/ mp = 8 -> d <= 30).
  { subst mp. intros Hc. destruct (InLeapYear y); split_ifs; lia. }
  assert (H29 : mp = 11 -> d <= 29 /\ (d = 29 -> InLeapYear y = true)).
  { subst mp. intros Hc. destruct (InLeapYear y); split_ifs; split; (lia || auto). }
  destruct (mp_inverse mp d Hmp Hd31 H30 ltac:(intros; apply H29; assumption))
    as (Hdoy & Hmpeq & Hdomeq & H365).
  set (doy := (153 * mp + 2) / 5 + d - 1) in *.
  assert (Hyoe : 0 <= y' mod 400 <= 399) by (pose proof (Z.mod_pos_bound y' 400); lia).
  assert (Hleap : doy = 365 ->
                  (y' mod 400 + 1) mod 4 = 0
                  /\ ((y' mod 400 + 1) mod 100 <> 0 \/ y' mod 400 = 399)).
  { intros E. destruct (H365 E) as [E1 E2]. destruct (H29 E1) as [_ HL]. specialize (HL E2).
    assert (m = 1) by (subst mp; split_ifs; lia). subst m.
    subst y'. change (1 <=? 1) with true. cbv iota.
    apply InLeapYear_spec in HL.
    clear - HL. Z.div_mod_to_equations; lia. }
  destruct (doe_inverse (y' mod 400) doy Hyoe Hdoy Hleap) as (Hdoe & Hyoeeq & Hdoyeq).
  set (doe := y' mod 400 * 365 + y' mod 400 / 4 - y' mod 400 / 100 + doy) in *.
  unfold civil_of_day. cbv zeta.
  replace (y' / 400 * 146097 + doe - 719468 + 719468) with (doe + y' / 400 * 146097) by ring.
  rewrite Z.mod_add by lia. rewrite Z.div_add by lia.
  rewrite (Z.mod_small doe) by lia. rewrite (Z.div_small doe) by lia.
  rewrite Hdoyeq, Hyoeeq, Hmpeq, Hdomeq.
  pose proof (Z.div_mod y' 400 ltac:(lia)) as Hy'.
  subst mp y'. split_ifs; repeat f_equal; try lia.
Qed.

(** The day before the first of the next month is the last of this month. *)
Lemma last_day_of_month y m :
  0 <= m <= 11 ->
  MakeDay y (m + 1) 0 = day_of_civil y m (days_in_month y m).
Proof.
  intros Hm. unfold MakeDay.
  pose proof (days_in_month_cases y m Hm) as Hdim.
  assert (Hc : m = 11 \/ m <= 10) by lia. destruct Hc as [-> | Hc].
  - change ((11 + 1) / 12) with 1. change ((11 + 1) mod 12) with 0.
    replace (days_in_month y 11) with 31 by (destruct Hdim as [[? _] | [[? _] | [_ ->]]]; lia).
    unfold day_of_civil. cbn [Z.leb Z.compare]. change (11 <=? 1) with false. cbv iota.
    replace (y + 1 - 1) with y by lia.
    (Z.div_mod_to_equations; lia).
  - rewrite (Z.div_small (m + 1) 12), (Z.mod_small (m + 1) 12), Z.add_0_r by lia.
    assert (Hcases : m = 0 \/ m = 1 \/ m = 2 \/ m = 3 \/ m = 4 \/ m = 5 \/ m = 6 \/ m = 7 \/ m = 8 \/ m = 9 \/ m = 10) by lia.
    unfold day_of_civil.
    destruct Hcases as [-> | [-> | Hcases]].
    + change (days_in_month y 0) with 31. change (0 + 1 <=? 1) with true. change (0 <=? 1) with true. cbv iota.
      rewrite !Z.add_0_r.
      (Z.div_mod_to_equations; lia).
    + change (1 + 1 <=? 1) with false. change (1 <=? 1) with true. cbv iota.
      rewrite !Z.add_0_r.
      unfold days_in_month. change (1 =? 1) with true. cbv iota.
      destruct (InLeapYear y) eqn:EL.
      * apply InLeapYear_spec in EL. (Z.div_mod_to_equations; lia).
      * assert (NL : ~ (y mod 4 = 0 /\ (y mod 100 <> 0 \/ y mod 400 = 0))).
        { rewrite <- InLeapYear_spec. congruence. }
        (Z.div_mod_to_equations; lia).
    + destruct (Z.leb_spec (m + 1) 1); [lia|]. destruct (Z.leb_spec m 1); [lia|].
      assert (E : (153 * (m + 1 - 2) + 2) / 5 + 1 - 1 - 1 = (153 * (m - 2) + 2) / 5 + days_in_month y m - 1).
      { repeat (destruct Hcases as [-> | Hcases]); try subst m; reflexivity. }
      rewrite !Z.add_0_r. clear Hdim. lia.
Qed.

(** *** Agreement with the definitions of ECMAScript

    The closed forms above compute what the standard defines: the date of a
    day is a valid date of the Gregorian calendar; [YearFromTime] is the year
    whose first day, [DayFromYear], is the last one at or before the day; and
    the day within the year is the lengths of the months before plus the day
    of the month. *)

(** A year of the era has a day 365 only when the civil year that follows
    its first ten months is a leap year. *)
Lemma doy_leap doe :
  0 <= doe < 146097 -> doy_of doe = 365 ->
  (yoe_of doe + 1) mod 4 = 0 /\ ((yoe_of doe + 1) mod 100 <> 0 \/ yoe_of doe = 399).
Proof.
  intros H. unfold doy_of, yoe_of.
  assert (Hc : doe / 36524 = 0 \/ doe / 36524 = 1 \/ doe / 36524 = 2 \/ doe / 36524 = 3 \/ doe / 36524 = 4)
    by (Z.div_mod_to_equations; lia).
  destruct Hc as [Hc|[Hc|[Hc|[Hc|Hc]]]]; rewrite Hc;
  (Z.div_mod_to_equations; lia).
Qed.

Lemma dom_of_month_length doy :
  0 <= doy <= 365 ->
  (mp_of doy = 1 \/ mp_of doy = 3 \/ mp_of doy = 6 \/ mp_of doy = 8 -> dom_of doy <= 30)
  /\ (mp_of doy = 11 -> dom_of doy = doy - 336).
Proof.
  intros H. unfold dom_of, mp_of. Z.div_mod_to_equations; lia.
Qed.

(** The date of a day is a date of the calendar. *)
Lemma civil_date_valid z y m d :
  civil_of_day z = (y, m, d) -> 0 <= m <= 11 /\ 1 <= d <= days_in_month y m.
Proof.
  intros E. destruct (civil_bounds _ _ _ _ E) as [Hm Hd]. split; [exact Hm |].
  unfold civil_of_day in E. cbv zeta in E. injection E as Hy Hmm Hdd.
  assert (Hdoe : 0 <= (z + 719468) mod 146097 < 146097) by (apply Z.mod_pos_bound; lia).
  destruct (yoe_range _ Hdoe) as [Hyoe Hdoy].
  pose proof (doy_leap _ Hdoe) as Hleap.
  destruct (mp_range _ Hdoy) as [Hmp _].
  destruct (dom_of_month_length _ Hdoy) as [H30 H11].
  set (doe := (z + 719468) mod 146097) in *.
  set (era := (z + 719468) / 146097) in *.
  set (yoe := yoe_of doe) in *. set (doy := doy_of doe) in *.
  set (mp := mp_of doy) in *. rewrite Hdd in *.
  clearbody mp doy yoe era doe.
  destruct (days_in_month_cases y m Hm) as [[Em Edim] | [[Em Edim] | [Em Edim]]];
    rewrite Edim.
  - assert (mp = 11) by (split_ifs; lia).
    specialize (H11 H).
    destruct (InLeapYear y) eqn:EL; [lia |].
    assert (doy <> 365); [| lia].
    intros E365. destruct (Hleap E365) as [H4 H100].
    assert (L : InLeapYear y = true); [| congruence].
    apply InLeapYear_spec. subst y m. split_ifs; try lia.
    clear - H4 H100 Hyoe. Z.div_mod_to_equations; lia.
  - assert (mp = 1 \/ mp = 3 \/ mp = 6 \/ mp = 8) by (split_ifs; lia).
    specialize (H30 H). lia.
  - lia.
Qed.

Lemma day_of_civil_DayFromYear y : day_of_civil y 0 1 = DayFromYear y.
Proof.
  unfold day_of_civil, DayFromYear. change (0 <=? 1) with true. cbv iota.
  change ((153 * (0 + 10) + 2) / 5) with 306.
  (Z.div_mod_to_equations; lia).
Qed.

(** [YearFromTime]: the year whose first day is the last one at or before
    the day of [t]. *)
Lemma YearFromTime_spec t :
  DayFromYear (YearFromTime t) <= Day t < DayFromYear (YearFromTime t + 1).
Proof.
  pose proof (civil_of_Day t) as E.
  destruct (civil_date_valid _ _ _ _ E) as [Hm Hd].
  apply day_of_civil_of_day in E. rewrite <- E.
  rewrite <- !day_of_civil_DayFromYear.
  set (y := YearFromTime t) in *. set (m := MonthFromTime t) in *.
  set (d := DateFromTime t) in *. clearbody y m d. clear E.
  destruct (days_in_month_cases y m Hm) as [[Em Edim] | [[Em Edim] | [Em Edim]]];
    rewrite Edim in Hd.
  - subst m. unfold day_of_civil. change (1 <=? 1) with true. change (0 <=? 1) with true.
    cbv iota. 
    destruct (InLeapYear y) eqn:EL.
    + apply InLeapYear_spec in EL. (Z.div_mod_to_equations; lia).
    + (Z.div_mod_to_equations; lia).
  - unfold day_of_civil. change (0 <=? 1) with true. cbv iota.
    destruct Em as [-> | [-> | [-> | ->]]]; cbn [Z.leb Z.compare Pos.compare Pos.compare_cont]; cbv iota;
    (Z.div_mod_to_equations; lia).
  - unfold day_of_civil. change (0 <=? 1) with true. cbv iota.
    destruct Em as [-> | [-> | [-> | [-> | [-> | [-> | ->]]]]]]; cbn [Z.leb Z.compare Pos.compare Pos.compare_cont]; cbv iota;
    (Z.div_mod_to_equations; lia).
Qed.

(** [DayWithinYear]: the months before, then the days of the month. *)
Lemma day_of_civil_within_year y m d :
  0 <= m <= 11 ->
  day_of_civil y m d = DayFromYear y + days_before_month y m + d - 1.
Proof.
  intros Hm. rewrite <- day_of_civil_DayFromYear.
  assert (C : m = 0 \/ m = 1 \/ m = 2 \/ m = 3 \/ m = 4 \/ m = 5 \/ m = 6
              \/ m = 7 \/ m = 8 \/ m = 9 \/ m = 10 \/ m = 11) by lia.
  unfold day_of_civil. change (0 <=? 1) with true. cbv iota.
  repeat (destruct C as [C | C]; [subst m | ]); try subst m;
    cbv [days_before_month Z.to_nat Pos.to_nat Pos.iter_op Nat.add seq map fold_right
         Z.of_nat Pos.of_succ_nat Pos.succ days_in_month Z.eqb Pos.eqb orb];
    cbn [Z.leb Z.compare Pos.compare Pos.compare_cont]; cbv iota.
  all: try (destruct (InLeapYear y) eqn:EL;
    [apply InLeapYear_spec in EL
    | assert (NL : ~ (y mod 4 = 0 /\ (y mod 100 <> 0 \/ y mod 400 = 0)))
        by (rewrite <- InLeapYear_spec; congruence)]).
  all: (Z.div_mod_to_equations; lia).
Qed.

Theorem Date_fields_spec t :
  0 <= MonthFromTime t <= 11
  /\ 1 <= DateFromTime t <= days_in_month (YearFromTime t) (MonthFromTime t)
  /\ DayFromYear (YearFromTime t) <= Day t < DayFromYear (YearFromTime t + 1)
  /\ Day t = DayFromYear (YearFromTime t)
             + days_before_month (YearFromTime t) (MonthFromTime t)
             + DateFromTime t - 1.
Proof.
  pose proof (civil_of_Day t) as E.
  destruct (civil_date_valid _ _ _ _ E) as [Hm Hd].
  split; [exact Hm |]. split; [exact Hd |]. split; [apply YearFromTime_spec |].
  rewrite <- day_of_civil_within_year by exact Hm.
  symmetry. apply day_of_civil_of_day. exact E.
Qed.

(** ** Reading back what [toISOString] writes *)

(** Digits are read back as written. *)
Lemma digit_of_digit n : digit_of (digit n) = Some (n mod 10).
Proof.
  unfold digit.
  pose proof (Z.mod_pos_bound n 10 ltac:(lia)) as H.
  assert (C : n mod 10 = 0 \/ n mod 10 = 1 \/ n mod 10 = 2 \/ n mod 10 = 3 \/ n mod 10 = 4
              \/ n mod 10 = 5 \/ n mod 10 = 6 \/ n mod 10 = 7 \/ n mod 10 = 8 \/ n mod 10 = 9) by lia.
  repeat (destruct C as [C | C]; [rewrite C; reflexivity |]).
  rewrite C; reflexivity.
Qed.

Lemma read_digits_pad2 n acc rest :
  0 <= n <= 99 ->
  read_digits 2 acc (pad2 n ++ rest)%string = Some (100 * acc + n, rest).
Proof.
  intros H. unfold pad2. cbn [append read_digits].
  rewrite !digit_of_digit. do 2 f_equal.
  Z.div_mod_to_equations; lia.
Qed.

Lemma read_digits_pad3 n acc rest :
  0 <= n <= 999 ->
  read_digits 3 acc (pad3 n ++ rest)%string = Some (1000 * acc + n, rest).
Proof.
  intros H. unfold pad3, pad2. cbn [append read_digits].
  rewrite !digit_of_digit. do 2 f_equal.
  Z.div_mod_to_equations; lia.
Qed.

Lemma read_digits_pad4 n acc rest :
  0 <= n <= 9999 ->
  read_digits 4 acc (pad4 n ++ rest)%string = Some (10000 * acc + n, rest).
Proof.
  intros H. unfold pad4, pad3, pad2. cbn [append read_digits].
  rewrite !digit_of_digit. do 2 f_equal.
  Z.div_mod_to_equations; lia.
Qed.

(** The first sixteen characters of the format are the date, the hour and
    the minute. *)
Lemma slice16_iso y mo d h mi rest :
  slice0 16 (pad4 y ++ "-" ++ pad2 mo ++ "-" ++ pad2 d ++ "T" ++ pad2 h ++ ":" ++ pad2 mi ++ rest)%string
  = (pad4 y ++ "-" ++ pad2 mo ++ "-" ++ pad2 d ++ "T" ++ pad2 h ++ ":" ++ pad2 mi)%string.
Proof.
  unfold slice0, pad4, pad3, pad2. cbn [append substring]. destruct rest; reflexivity.
Qed.

Lemma read_char_here c rest : read_char c (String c rest) = Some rest.
Proof. unfold read_char. rewrite Ascii.eqb_refl. reflexivity. Qed.

(** One step of the parser on a string written field by field. *)
Ltac parse_step :=
  first
  [ rewrite read_digits_pad4 by lia
  | rewrite read_digits_pad3 by lia
  | rewrite read_digits_pad2 by lia
  | rewrite read_char_here
  | progress cbn [bind_opt append] ].

(** A digit is neither a sign nor a separator. *)
Lemma digit_not_char n c : digit_of c = None -> Ascii.eqb (digit n) c = false.
Proof.
  intros Hc. destruct (Ascii.eqb_spec (digit n) c) as [E | E]; [| reflexivity].
  rewrite <- E, digit_of_digit in Hc. discriminate Hc.
Qed.

Lemma parse_year_pad4 y rest :
  0 <= y <= 9999 -> parse_year (pad4 y ++ rest)%string = Some (y, rest).
Proof.
  intros Hy. unfold parse_year.
  change (pad4 y ++ rest)%string
    with (String (digit (y / 1000)) (pad3 y ++ rest)%string).
  cbv beta iota.
  rewrite !digit_not_char by reflexivity.
  change (String (digit (y / 1000)) (pad3 y ++ rest)%string)
    with (pad4 y ++ rest)%string.
  rewrite read_digits_pad4 by exact Hy. reflexivity.
Qed.

Lemma parse_date_field_here v rest :
  0 <= v <= 99 ->
  parse_date_field ("-" ++ pad2 v ++ rest)%string = Some (Some v, rest).
Proof.
  intros Hv. unfold parse_date_field.
  change ("-" ++ pad2 v ++ rest)%string with (String "-" (pad2 v ++ rest)%string).
  rewrite read_char_here, read_digits_pad2 by exact Hv.
  reflexivity.
Qed.

(** The parser on a string that starts with a date, an hour and a minute. *)
Lemma Date_parse_prefix tz y mo d h mi rest :
  0 <= y <= 9999 -> 1 <= mo <= 12 -> 1 <= d <= 31 -> 0 <= h <= 23 -> 0 <= mi <= 59 ->
  Date_parse tz (pad4 y ++ "-" ++ pad2 mo ++ "-" ++ pad2 d ++ "T" ++ pad2 h ++ ":" ++ pad2 mi ++ rest)%string
  = bind_opt (parse_seconds rest) (fun '(sec, ms, r10) =>
    bind_opt (parse_zone r10) (fun zone =>
      if negb (valid_time h mi sec ms) then None
      else
        let tv := MakeDate (MakeDay y (mo - 1) d) (MakeTime h mi sec ms) in
        match zone with
        | None => Some (UTC tz tv)
        | Some off => Some (tv - off * msPerMinute)
        end)).
Proof.
  intros Hy Hmo Hd Hh Hmi. unfold Date_parse.
  rewrite parse_year_pad4 by exact Hy. cbn [bind_opt].
  rewrite parse_date_field_here by lia. cbn [bind_opt].
  rewrite parse_date_field_here by lia. cbn [bind_opt].
  replace ((1 <=? mo) && (mo <=? 12) && (1 <=? d) && (d <=? 31))%bool with true
    by (symmetry; rewrite !andb_true_iff, !Z.leb_le; lia).
  change ("T" ++ pad2 h ++ ":" ++ pad2 mi ++ rest)%string
    with (String "T" (pad2 h ++ ":" ++ pad2 mi ++ rest)%string).
  change (time_separator "T" true) with true. cbn [negb].
  repeat parse_step.
  replace (100 * 0 + h) with h by lia.
  replace (100 * 0 + mi) with mi by lia.
  reflexivity.
Qed.

Lemma Date_parse_minutes tz y mo d h mi :
  0 <= y <= 9999 -> 1 <= mo <= 12 -> 1 <= d <= 31 -> 0 <= h <= 23 -> 0 <= mi <= 59 ->
  Date_parse tz (pad4 y ++ "-" ++ pad2 mo ++ "-" ++ pad2 d ++ "T" ++ pad2 h ++ ":" ++ pad2 mi)%string
  = Some (UTC tz (MakeDate (MakeDay y (mo - 1) d) (MakeTime h mi 0 0))).
Proof.
  intros Hy Hmo Hd Hh Hmi.
  change (pad2 mi) with (pad2 mi ++ "")%string.
  rewrite Date_parse_prefix by assumption.
  cbn [parse_seconds read_char bind_opt parse_zone]. unfold valid_time.
  replace ((h <=? 23) && (mi <=? 59) && (0 <=? 59))%bool with true
    by (symmetry; rewrite !andb_true_iff, !Z.leb_le; lia).
  reflexivity.
Qed.

(** Three digits of fraction are the milliseconds; further digits are
    dropped. *)
Lemma read_fraction_pad3 ms rest :
  0 <= ms <= 999 ->
  read_fraction (pad3 ms ++ rest)%string = Some (ms, skip_digits rest).
Proof.
  intros H. unfold read_fraction, pad3, pad2. cbn [append read_digits].
  rewrite !digit_of_digit. cbn [bind_opt]. rewrite !digit_of_digit.
  do 2 f_equal. Z.div_mod_to_equations; lia.
Qed.

Lemma Date_parse_full tz y mo d h mi sec ms :
  0 <= y <= 9999 -> 1 <= mo <= 12 -> 1 <= d <= 31 -> 0 <= h <= 23 -> 0 <= mi <= 59 ->
  0 <= sec <= 59 -> 0 <= ms <= 999 ->
  Date_parse tz (pad4 y ++ "-" ++ pad2 mo ++ "-" ++ pad2 d ++ "T" ++ pad2 h ++ ":" ++ pad2 mi
                 ++ ":" ++ pad2 sec ++ "." ++ pad3 ms ++ "Z")%string
  = Some (MakeDate (MakeDay y (mo - 1) d) (MakeTime h mi sec ms)).
Proof.
  intros Hy Hmo Hd Hh Hmi Hs Hms.
  rewrite Date_parse_prefix by assumption.
  unfold parse_seconds. repeat parse_step.
  rewrite read_fraction_pad3 by exact Hms. cbn [bind_opt].
  replace (100 * 0 + sec) with sec by lia.
  change (skip_digits "Z") with "Z"%string.
  change (parse_zone "Z") with (Some (Some 0)).
  unfold valid_time.
  replace ((h <=? 23) && (mi <=? 59) && (sec <=? 59))%bool with true
    by (symmetry; rewrite !andb_true_iff, !Z.leb_le; lia).
  cbn [orb negb bind_opt]. rewrite Z.mul_0_l, Z.sub_0_r. reflexivity.
Qed.


Lemma time_field_ranges t :
  0 <= HourFromTime t <= 23 /\ 0 <= MinFromTime t <= 59
  /\ 0 <= SecFromTime t <= 59 /\ 0 <= msFromTime t <= 999.
Proof.
  unfold HourFromTime, MinFromTime, SecFromTime, msFromTime, msPerSecond.
  pose proof (Z.mod_pos_bound (t / msPerHour) 24).
  pose proof (Z.mod_pos_bound (t / msPerMinute) 60).
  pose proof (Z.mod_pos_bound (t / 1000) 60).
  pose proof (Z.mod_pos_bound t 1000).
  lia.
Qed.

Lemma date_field_ranges t :
  1 <= MonthFromTime t + 1 <= 12 /\ 1 <= DateFromTime t <= 31.
Proof.
  destruct (civil_bounds _ _ _ _ (civil_of_Day t)). lia.
Qed.

Lemma isoString_four_digit_year t :
  0 <= YearFromTime t <= 9999 ->
  isoString t =
  (pad4 (YearFromTime t) ++ "-" ++ pad2 (MonthFromTime t + 1) ++ "-"
   ++ pad2 (DateFromTime t) ++ "T" ++ pad2 (HourFromTime t) ++ ":"
   ++ pad2 (MinFromTime t) ++ ":" ++ pad2 (SecFromTime t) ++ "."
   ++ pad3 (msFromTime t) ++ "Z")%string.
Proof.
  intros H. unfold isoString, isoYear.
  replace ((0 <=? YearFromTime t) && (YearFromTime t <=? 9999))%bool with true
    by (symmetry; rewrite andb_true_iff, !Z.leb_le; lia).
  reflexivity.
Qed.

(** Parsing inverts [toISOString], in every host time zone. *)
Lemma Date_parse_isoString tz t :
  0 <= YearFromTime t <= 9999 -> Date_parse tz (isoString t) = Some t.
Proof.
  intros Hy. rewrite isoString_four_digit_year by exact Hy.
  destruct (time_field_ranges t) as (Hh & Hmi & Hs & Hms).
  destruct (date_field_ranges t) as (Hmo & Hd).
  rewrite Date_parse_full by assumption.
  replace (MonthFromTime t + 1 - 1) with (MonthFromTime t) by lia.
  rewrite MakeDay_fields, time_fields. reflexivity.
Qed.

(** The first sixteen characters are read as local time, to the minute. *)
Lemma Date_parse_slice_isoString tz t :
  0 <= YearFromTime t <= 9999 ->
  Date_parse tz (slice0 16 (isoString t)) = Some (UTC tz (t - t mod msPerMinute)).
Proof.
  intros Hy. rewrite isoString_four_digit_year by exact Hy.
  destruct (time_field_ranges t) as (Hh & Hmi & Hs & Hms).
  destruct (date_field_ranges t) as (Hmo & Hd).
  rewrite slice16_iso, Date_parse_minutes by assumption.
  replace (MonthFromTime t + 1 - 1) with (MonthFromTime t) by lia.
  rewrite MakeDay_fields, minute_fields. reflexivity.
Qed.

Lemma slice_isoString_truthy t :
  0 <= YearFromTime t <= 9999 -> truthy (slice0 16 (isoString t)) = true.
Proof.
  intros Hy. rewrite isoString_four_digit_year, slice16_iso by exact Hy. reflexivity.
Qed.

Lemma TimeClip_in_range t :
  - 8640000000000000 <= t <= 8640000000000000 -> TimeClip t = Some t.
Proof.
  intros H. unfold TimeClip.
  destruct (Z.leb_spec (Z.abs t) 8640000000000000); [reflexivity | lia].
Qed.

(** ** The edit round trip of a timestamp *)

(** X9. On a host without zone transitions, for a stored timestamp of the
    years 0000 to 9999, the edit form shows the UTC wall-clock time to the
    minute, reads it back as local time, and so submits the stored instant
    cut to the minute and moved back by the zone offset. *)
Lemma editTimestamp_instant tz s t :
  -1440 <= tz <= 1440 ->
  Date_of_string tz s = Some t ->
  -62167219200000 <= t <= 253402300799999 ->
  initTimestamp tz (Some s) = Returned (slice0 16 (isoString t))
  /\ editTimestamp tz (Some s)
     = Returned (Some (isoString (t - t mod msPerMinute - tz * msPerMinute))).
Proof.
  intros Htz Hs Ht.
  pose proof (year_range t Ht) as Hy.
  assert (Hinit : initTimestamp tz (Some s) = Returned (slice0 16 (isoString t))).
  { unfold initTimestamp.
    destruct s as [| c s']; [discriminate Hs |].
    change (truthy (String c s')) with true. cbv iota.
    rewrite Hs. reflexivity. }
  split; [exact Hinit |].
  unfold editTimestamp. rewrite Hinit. unfold submitTimestamp.
  rewrite slice_isoString_truthy by exact Hy.
  unfold Date_of_string. rewrite Date_parse_slice_isoString by exact Hy.
  unfold UTC, LocalTZA, fixedZone. cbn [local_offset].
  rewrite TimeClip_in_range; [reflexivity |].
  unfold msPerMinute. Z.div_mod_to_equations; lia.
Qed.

(** So the round trip gives back the stored instant exactly when the
    timestamp is a whole minute and the host is at UTC. *)
Lemma editTimestamp_identity_iff tz t :
  t - t mod msPerMinute - tz * msPerMinute = t <-> t mod msPerMinute = 0 /\ tz = 0.
Proof.
  unfold msPerMinute. pose proof (Z.mod_pos_bound t 60000). lia.
Qed.

(** C1, at the failing input.  On a host one hour east of UTC, the edit form
    opened on a task due at 10:30 UTC shows 10:30, and submitting it untouched
    sends 09:30 UTC: the due date has moved by one hour. *)
Theorem C1_edit_round_trip_shifts :
  Date_of_string 60 "2024-01-15T10:30:00.000Z" = Some 1705314600000
  /\ initialFormData 60 (Some dentistTask)
     = Returned {| title := "Dentist"; description := ""; category := "Health";
                   priority := "High"; due_date := "2024-01-15T10:30";
                   reminder := "" |}
  /\ editAndSubmit 60 dentistTask
     = Returned {| sd_title := "Dentist"; sd_description := "";
                   sd_category := "Health"; sd_priority := "High";
                   sd_due_date := Some "2024-01-15T09:30:00.000Z";
                   sd_reminder := None |}
  /\ Date_of_string 60 "2024-01-15T09:30:00.000Z" = Some 1705311000000
  /\ 1705311000000 <> 1705314600000.
Proof.
  repeat split; try (vm_compute; reflexivity). discriminate.
Qed.

(** ** The month grid *)

Lemma Day_MakeDate_midnight z : Day (MakeDate z 0) = z.
Proof.
  unfold Day, MakeDate, msPerDay. rewrite Z.add_0_r. apply Z.div_mul. lia.
Qed.

Lemma day_of_civil_range y m d :
  -271820 <= y <= 275760 -> 0 <= m <= 11 -> 1 <= d <= 31 ->
  (y = 275760 -> m = 0) ->
  -99999999 <= day_of_civil y m d <= 99999999.
Proof.
  intros Hy Hm Hd Hedge. unfold day_of_civil.
  split_ifs; Z.div_mod_to_equations; lia.
Qed.

Lemma day_of_civil_shift y m d : day_of_civil y m 1 + d - 1 = day_of_civil y m d.
Proof. unfold day_of_civil. lia. Qed.

Lemma days_in_month_range y m : 28 <= days_in_month y m <= 31.
Proof.
  unfold days_in_month.
  destruct (m =? 1); [destruct (InLeapYear y); lia |].
  destruct ((m =? 3) || (m =? 5) || (m =? 8) || (m =? 10))%bool; lia.
Qed.

Lemma weekday_of_first_range y m : 0 <= weekday_of_first y m <= 6.
Proof.
  unfold weekday_of_first.
  pose proof (Z.mod_pos_bound (day_of_civil y m 1 + 4) 7). lia.
Qed.

Lemma getMonth_range (tz : Zone) t : 0 <= getMonth tz t <= 11.
Proof.
  destruct (civil_bounds _ _ _ _ (civil_of_Day (LocalTime tz t))) as [H _].
  exact H.
Qed.

(** On a host without zone transitions, local time and UTC invert each
    other. *)
Lemma LocalTime_UTC (tz : Z) t : LocalTime tz (UTC tz t) = t.
Proof. unfold LocalTime, UTC, LocalTZA, fixedZone. cbn [utc_offset local_offset]. lia. Qed.

(** The constructor takes a year outside 0 to 99 as it is. *)
Lemma MakeFullYear_kept y : y < 0 \/ 99 < y -> MakeFullYear y = y.
Proof.
  intros H. unfold MakeFullYear.
  replace ((0 <=? y) && (y <=? 99))%bool with false
    by (symmetry; rewrite andb_false_iff, !Z.leb_gt; lia).
  reflexivity.
Qed.

(** [new Date(year, month, d)] is local midnight of that day, when it is in
    the range of [Date]. *)
Lemma Date_ymd_local_midnight (tz : Zone) y m d :
  y < 0 \/ 99 < y -> 0 <= m <= 11 ->
  Date_ymd tz y m d = TimeClip (local_midnight tz y m d).
Proof.
  intros Hy Hm. unfold Date_ymd, local_midnight.
  rewrite MakeFullYear_kept, MakeDay_civil by assumption. reflexivity.
Qed.

(** [new Date(year, month + 1, 0)] is local midnight of the last day of
    the month. *)
Lemma Date_ymd_last_day (tz : Zone) y m :
  y < 0 \/ 99 < y -> 0 <= m <= 11 ->
  Date_ymd tz y (m + 1) 0 = TimeClip (local_midnight tz y m (days_in_month y m)).
Proof.
  intros Hy Hm. unfold Date_ymd, local_midnight.
  rewrite MakeFullYear_kept, last_day_of_month by assumption. reflexivity.
Qed.

(** The fields of a time of day [d] of month [m] of year [y], and back. *)
Lemma fields_of_Day (tz : Zone) t y m d :
  0 <= m <= 11 -> 1 <= d <= days_in_month y m ->
  Day (LocalTime tz t) = day_of_civil y m d ->
  getFullYear tz t = y /\ getMonth tz t = m /\ getDate tz t = d
  /\ getDay tz t = (day_of_civil y m d + 4) mod 7.
Proof.
  intros Hm Hd E.
  unfold getFullYear, getMonth, getDate, getDay,
    YearFromTime, MonthFromTime, DateFromTime, WeekDay.
  rewrite E, civil_of_day_of_civil by assumption.
  split; [reflexivity |]. split; [reflexivity |]. split; reflexivity.
Qed.

Lemma Day_of_fields (tz : Zone) t y m d :
  getFullYear tz t = y -> getMonth tz t = m -> getDate tz t = d ->
  Day (LocalTime tz t) = day_of_civil y m d.
Proof.
  intros Hy Hm Hd. symmetry. apply day_of_civil_of_day.
  rewrite civil_of_Day. unfold getFullYear, getMonth, getDate in *. congruence.
Qed.

(** What [month_displayable] decides. *)
Lemma month_displayable_spec (tz : Zone) y m :
  month_displayable tz y m = true <->
  forall d, 1 <= d <= days_in_month y m ->
    Z.abs (local_midnight tz y m d) <= 8640000000000000
    /\ Day (LocalTime tz (local_midnight tz y m d)) = day_of_civil y m d.
Proof.
  unfold month_displayable. rewrite forallb_forall. split.
  - intros H d Hd. specialize (H (Z.to_nat d)).
    rewrite in_seq, Z2Nat.id, andb_true_iff, Z.leb_le, Z.eqb_eq in H by lia.
    apply H. lia.
  - intros H i Hi. apply in_seq in Hi.
    rewrite andb_true_iff, Z.leb_le, Z.eqb_eq. apply H. lia.
Qed.

(** On a displayable month of a year that the constructor keeps, the code
    builds the grid of that month. *)
Lemma getDaysInMonth_displayable (tz : Zone) date :
  let year := getFullYear tz date in
  let month := getMonth tz date in
  year < 0 \/ 99 < year ->
  month_displayable tz year month = true ->
  getDaysInMonth tz date = month_grid tz year month.
Proof.
  intros year month Hy Hdisp.
  pose proof (getMonth_range tz date) as Hm. fold month in Hm.
  pose proof (days_in_month_range year month) as Hn.
  pose proof (proj1 (month_displayable_spec tz year month) Hdisp) as Hdays.
  assert (Hcell : forall d, 1 <= d <= days_in_month year month ->
            Date_ymd tz year month d = Some (local_midnight tz year month d)).
  { intros d Hd. rewrite Date_ymd_local_midnight by assumption.
    apply TimeClip_in_range. destruct (Hdays d Hd) as [Habs _]. lia. }
  unfold getDaysInMonth, month_grid. fold year month.
  rewrite Date_ymd_last_day by assumption.
  rewrite <- (Date_ymd_local_midnight tz year month (days_in_month year month))
    by assumption.
  rewrite !Hcell by lia.
  cbn [Date_getDate Date_getDay option_map loop_count].
  destruct (Hdays 1 ltac:(lia)) as [_ Hfirst].
  destruct (Hdays (days_in_month year month) ltac:(lia)) as [_ Hlast].
  destruct (fields_of_Day tz _ year month 1 Hm ltac:(lia) Hfirst)
    as (_ & _ & _ & Hwd).
  destruct (fields_of_Day tz _ year month (days_in_month year month) Hm
              ltac:(lia) Hlast)
    as (_ & _ & Hdate & _).
  rewrite Hwd, Hdate. fold (weekday_of_first year month).
  f_equal. apply map_ext_in. intros i Hi. apply in_seq in Hi.
  rewrite Hcell by lia. reflexivity.
Qed.

(** A list of nulls followed by dates is split in one way only. *)
Lemma nulls_then_days_inj {A : Type} (a b : nat) (l1 l2 : list (option A)) :
  (repeat None a ++ l1 = repeat None b ++ l2)%list ->
  ~ In None l1 -> ~ In None l2 -> a = b /\ l1 = l2.
Proof.
  revert b. induction a as [| a IH]; intros [| b] H H1 H2; cbn in H.
  - auto.
  - exfalso. apply H1. rewrite H. left. reflexivity.
  - exfalso. apply H2. rewrite <- H. left. reflexivity.
  - injection H as H. destruct (IH b H H1 H2) as [-> ->]. auto.
Qed.

Lemma paired_maps {A B C D : Type} (f : A -> C) (g : B -> C) (h : B -> D)
  (k : A -> D) (l : list A) (days : list B) :
  map f l = map g days -> map h days = map k l ->
  forall i, In i l -> exists t, f i = g t /\ h t = k i.
Proof.
  revert days.
  induction l as [| a l IH]; intros [| t days] H1 H2 i Hi; cbn in *;
    try discriminate; try contradiction.
  injection H1 as H1 H1'. injection H2 as H2 H2'.
  destruct Hi as [<- | Hi]; [exists t; auto | exact (IH days H1' H2' i Hi)].
Qed.

(** When the grid is as the specification describes it, the constructor has
    given, for each day number of the month, a valid date that is that day of
    that month. *)
Lemma getDaysInMonth_as_stated_days (tz : Zone) date :
  getDaysInMonth_as_stated tz date ->
  forall d, 1 <= d <= days_in_month (getFullYear tz date) (getMonth tz date) ->
    exists t, Date_ymd tz (getFullYear tz date) (getMonth tz date) d = Some t
              /\ getFullYear tz t = getFullYear tz date
              /\ getMonth tz t = getMonth tz date
              /\ getDate tz t = d.
Proof.
  unfold getDaysInMonth_as_stated, getDaysInMonth. cbv zeta.
  set (year := getFullYear tz date). set (month := getMonth tz date).
  intros (days & Hgrid & Hfields) d Hd.
  apply nulls_then_days_inj in Hgrid.
  - destruct Hgrid as [_ Hgrid].
    assert (Hlen : loop_count (Date_getDate tz (Date_ymd tz year (month + 1) 0))
                   = Z.to_nat (days_in_month year month)).
    { apply (f_equal (@List.length _)) in Hgrid, Hfields.
      rewrite !length_map, !length_seq in *. congruence. }
    rewrite Hlen in Hgrid.
    destruct (paired_maps _ _ _ _ _ _ Hgrid Hfields (Z.to_nat d)) as (t & E & F).
    { apply in_seq. lia. }
    rewrite Z2Nat.id in E, F by lia.
    exists t. injection E as E. injection F as F1 F2 F3. auto.
  - intros H. apply in_map_iff in H. destruct H as (i & H & _). discriminate H.
  - intros H. apply in_map_iff in H. destruct H as (t & H & _). discriminate H.
Qed.

(** The fields of the days of a displayable month. *)
Lemma displayable_day_fields (tz : Zone) y m d :
  0 <= m <= 11 ->
  month_displayable tz y m = true ->
  1 <= d <= days_in_month y m ->
  getFullYear tz (local_midnight tz y m d) = y
  /\ getMonth tz (local_midnight tz y m d) = m
  /\ getDate tz (local_midnight tz y m d) = d
  /\ getDay tz (local_midnight tz y m d) = (day_of_civil y m d + 4) mod 7.
Proof.
  intros Hm Hdisp Hd.
  destruct (proj1 (month_displayable_spec tz y m) Hdisp d Hd) as [_ HD].
  exact (fields_of_Day tz _ y m d Hm Hd HD).
Qed.

(** On a displayable month of a year that the constructor keeps, the grid is
    the one that the specification describes. *)
Lemma getDaysInMonth_as_stated_displayable (tz : Zone) date :
  getFullYear tz date < 0 \/ 99 < getFullYear tz date ->
  month_displayable tz (getFullYear tz date) (getMonth tz date) = true ->
  getDaysInMonth_as_stated tz date.
Proof.
  intros Hy Hdisp. unfold getDaysInMonth_as_stated. cbv zeta.
  exists (map (fun i => local_midnight tz (getFullYear tz date) (getMonth tz date)
                          (Z.of_nat i))
              (seq 1 (Z.to_nat (days_in_month (getFullYear tz date)
                                              (getMonth tz date))))).
  split.
  - rewrite (getDaysInMonth_displayable tz date Hy Hdisp). unfold month_grid.
    rewrite map_map. reflexivity.
  - rewrite map_map. apply map_ext_in. intros i Hi. apply in_seq in Hi.
    destruct (displayable_day_fields tz _ _ (Z.of_nat i) (getMonth_range tz date)
                Hdisp ltac:(lia)) as (F1 & F2 & F3 & _).
    rewrite F1, F2, F3. reflexivity.
Qed.

(** C8 (as amended). For a month of a year outside 0 to 99, [getDaysInMonth]
    returns the grid of the specification exactly when the host can display
    the month: local midnight of each of its days is within the range of
    [Date] and is a time of that same day on the host.  The grid is then one
    [null] for each weekday before the first day of the month, followed by
    local midnight of the days 1 to [n] of that month in ascending order, [n]
    being the length of the month; the list has length [w + n] and nothing
    else in it. *)
Theorem C8_getDaysInMonth_grid :
  forall (tz : Zone) (date : Z),
    let year := getFullYear tz date in
    let month := getMonth tz date in
    let w := weekday_of_first year month in
    let n := days_in_month year month in
    year < 0 \/ 99 < year ->
    (getDaysInMonth_as_stated tz date <-> month_displayable tz year month = true)
    /\ (month_displayable tz year month = true ->
        getDaysInMonth tz date
        = (repeat None (Z.to_nat w)
           ++ map (fun i => Some (Some (local_midnight tz year month (Z.of_nat i))))
                  (seq 1 (Z.to_nat n)))%list
        /\ List.length (getDaysInMonth tz date) = (Z.to_nat w + Z.to_nat n)%nat
        /\ 0 <= month <= 11 /\ 0 <= w <= 6 /\ 28 <= n <= 31
        /\ getDay tz (local_midnight tz year month 1) = w
        /\ (forall d, 1 <= d <= n ->
              getFullYear tz (local_midnight tz year month d) = year
              /\ getMonth tz (local_midnight tz year month d) = month
              /\ getDate tz (local_midnight tz year month d) = d)).
Proof.
  intros tz date year month w n Hy.
  pose proof (getMonth_range tz date) as Hm. fold month in Hm.
  pose proof (days_in_month_range year month) as Hn. fold n in Hn.
  assert (Hfields : month_displayable tz year month = true ->
            forall d, 1 <= d <= n ->
              getFullYear tz (local_midnight tz year month d) = year
              /\ getMonth tz (local_midnight tz year month d) = month
              /\ getDate tz (local_midnight tz year month d) = d
              /\ getDay tz (local_midnight tz year month d)
                 = (day_of_civil year month d + 4) mod 7).
  { intros Hdisp d Hd. exact (displayable_day_fields tz year month d Hm Hdisp Hd). }
  split; [split |].
  - (* the grid of the specification needs a displayable month *)
    intros Hst. apply month_displayable_spec. intros d Hd.
    destruct (getDaysInMonth_as_stated_days tz date Hst d Hd) as (t & E & F1 & F2 & F3).
    fold year month in E, F1, F2.
    rewrite Date_ymd_local_midnight in E by assumption.
    unfold TimeClip in E.
    destruct (Z.leb_spec (Z.abs (local_midnight tz year month d)) 8640000000000000)
      as [Habs | Habs]; [| discriminate E].
    injection E as <-. split; [exact Habs |].
    apply Day_of_fields; assumption.
  - (* a displayable month gives the grid of the specification *)
    intros Hdisp. exact (getDaysInMonth_as_stated_displayable tz date Hy Hdisp).
  - intros Hdisp.
    pose proof (getDaysInMonth_displayable tz date Hy Hdisp) as Hgrid.
    split; [exact Hgrid |]. split.
    { rewrite Hgrid. unfold month_grid.
      rewrite length_app, repeat_length, length_map, length_seq. reflexivity. }
    split; [exact Hm |]. split; [apply weekday_of_first_range |].
    split; [exact Hn |]. split.
    { destruct (Hfields Hdisp 1 ltac:(lia)) as (_ & _ & _ & F4). exact F4. }
    intros d Hd. destruct (Hfields Hdisp d Hd) as (F1 & F2 & F3 & _).
    split; [exact F1 |]. split; [exact F2 | exact F3].
Qed.

(** October 2024 in Europe/Paris, the month in which summer time ends: the
    grid starts with two nulls, the first of the month being a Tuesday, and
    holds the 31 days of the month. *)
Lemma C8_getDaysInMonth_grid_witness :
  (getFullYear Europe_Paris_2024 1728993600000 < 0
   \/ 99 < getFullYear Europe_Paris_2024 1728993600000)
  /\ getDaysInMonth_as_stated Europe_Paris_2024 1728993600000
  /\ List.length (getDaysInMonth Europe_Paris_2024 1728993600000) = (2 + 31)%nat.
Proof.
  assert (H : getFullYear Europe_Paris_2024 1728993600000 < 0
              \/ 99 < getFullYear Europe_Paris_2024 1728993600000)
    by (right; vm_compute; reflexivity).
  assert (Hdisp : month_displayable Europe_Paris_2024
                    (getFullYear Europe_Paris_2024 1728993600000)
                    (getMonth Europe_Paris_2024 1728993600000) = true)
    by (vm_compute; reflexivity).
  destruct (C8_getDaysInMonth_grid Europe_Paris_2024 1728993600000 H) as [Hiff Hgrid].
  split; [exact H |]. split.
  - exact (proj2 Hiff Hdisp).
  - exact (proj1 (proj2 (Hgrid Hdisp))).
Defined.

(** C8, counterexamples.  For December of the year 99 the constructor reads
    the year as 1999: the grid starts with three empty slots, where December
    99 started on a Tuesday, and holds the days of December 1999.  For
    September 275760, the last month of the range of [Date], the last day is
    an Invalid Date, the day count is NaN and the grid has no day at all.
    For December 2011 in Pacific/Apia, where 30 December was skipped, the
    thirtieth date of the grid is 31 December, which comes twice. *)
Lemma C8_grid_counterexamples :
  (~ getDaysInMonth_as_stated 0 (-59012928000000)
   /\ (getFullYear 0 (-59012928000000), getMonth 0 (-59012928000000)) = (99, 11)
   /\ getDaysInMonth 0 (-59012928000000) = month_grid 0 1999 11)
  /\ (~ getDaysInMonth_as_stated 0 8640000000000000
      /\ (getFullYear 0 8640000000000000, getMonth 0 8640000000000000) = (275760, 8)
      /\ getDaysInMonth 0 8640000000000000 = [None])
  /\ (~ getDaysInMonth_as_stated Pacific_Apia_2011 1323950400000
      /\ (getFullYear Pacific_Apia_2011 1323950400000,
          getMonth Pacific_Apia_2011 1323950400000) = (2011, 11)
      /\ day_numbers Pacific_Apia_2011 (getDaysInMonth Pacific_Apia_2011 1323950400000)
         = (repeat None 4 ++ map (fun i => Some (Z.of_nat i)) (seq 1 29)
            ++ [Some 31; Some 31])%list).
Proof.
  split; [| split]; (split; [| split; vm_compute; reflexivity]); intros H.
  - destruct (getDaysInMonth_as_stated_days _ _ H 1) as (t & E & F & _).
    + vm_compute. split; discriminate.
    + vm_compute in E. injection E as <-. vm_compute in F. discriminate F.
  - destruct (getDaysInMonth_as_stated_days _ _ H 14) as (t & E & _).
    + vm_compute. split; discriminate.
    + vm_compute in E. discriminate E.
  - destruct (getDaysInMonth_as_stated_days _ _ H 30) as (t & E & _ & _ & F).
    + vm_compute. split; discriminate.
    + vm_compute in E. injection E as <-. vm_compute in F. discriminate F.
Qed.

(** On a host without zone transitions and within a day of UTC, every month
    of the years -271820 to 275759 is displayable. *)
Lemma month_displayable_fixed (tz y m : Z) :
  -1440 <= tz <= 1440 -> -271820 <= y <= 275759 -> 0 <= m <= 11 ->
  month_displayable tz y m = true.
Proof.
  intros Htz Hy Hm. apply month_displayable_spec. intros d Hd.
  pose proof (days_in_month_range y m) as Hn.
  unfold local_midnight. rewrite LocalTime_UTC, Day_MakeDate_midnight.
  split; [| reflexivity].
  pose proof (day_of_civil_range y m d ltac:(lia) Hm ltac:(lia) ltac:(lia)).
  unfold UTC, LocalTZA, fixedZone, MakeDate, msPerDay, msPerMinute.
  cbn [local_offset]. lia.
Qed.

(** The first and the last year of the range of [Date], at UTC: the months
    from May to December of the year -271821 and from January to August of
    the year 275760 are displayable, those that hold an end of the range are
    not. *)
Example month_displayable_edge_years :
  forallb (month_displayable 0 (-271821)) [4; 5; 6; 7; 8; 9; 10; 11] = true
  /\ forallb (month_displayable 0 275760) [0; 1; 2; 3; 4; 5; 6; 7] = true
  /\ month_displayable 0 (-271821) 3 = false
  /\ month_displayable 0 275760 8 = false.
Proof. split; [| split; [| split]]; vm_compute; reflexivity. Qed.

(** So the grids of May of the year -271821 and of August of the year 275760
    are those of the specification. *)
Example getDaysInMonth_edge_years :
  (getFullYear 0 (-8639997840000000), getMonth 0 (-8639997840000000)) = (-271821, 4)
  /\ getDaysInMonth_as_stated 0 (-8639997840000000)
  /\ (getFullYear 0 8639997494400000, getMonth 0 8639997494400000) = (275760, 7)
  /\ getDaysInMonth_as_stated 0 8639997494400000.
Proof.
  split; [vm_compute; reflexivity |]. split.
  { apply getDaysInMonth_as_stated_displayable;
      [left; vm_compute; reflexivity | vm_compute; reflexivity]. }
  split; [vm_compute; reflexivity |].
  apply getDaysInMonth_as_stated_displayable;
    [right; vm_compute; reflexivity | vm_compute; reflexivity].
Qed.

(** ** Events of a day *)

Lemma WeekDay_range t : 0 <= WeekDay t <= 6.
Proof.
  unfold WeekDay. pose proof (Z.mod_pos_bound (Day t + 4) 7). lia.
Qed.

(** The pieces of [toDateString] determine the fields they print. *)
Lemma digit_inj a b : digit a = digit b -> a mod 10 = b mod 10.
Proof.
  intros H. pose proof (digit_of_digit a) as Ha. rewrite H, digit_of_digit in Ha.
  congruence.
Qed.

Lemma digit_not_minus a : digit a <> "-"%char.
Proof.
  intros H. pose proof (digit_of_digit a) as Ha. rewrite H in Ha. discriminate Ha.
Qed.

Lemma pad2_inj a b : 0 <= a <= 99 -> 0 <= b <= 99 -> pad2 a = pad2 b -> a = b.
Proof.
  intros Ha Hb H. unfold pad2 in H. injection H as H1 H2.
  apply digit_inj in H1, H2. Z.div_mod_to_equations; lia.
Qed.

Lemma pad4_inj a b : pad4 a = pad4 b -> a mod 10000 = b mod 10000.
Proof.
  intros H. unfold pad4, pad3, pad2 in H. injection H as H1 H2 H3 H4.
  apply digit_inj in H1, H2, H3, H4. Z.div_mod_to_equations; lia.
Qed.

Lemma string_length_append (s1 s2 : string) :
  String.length (s1 ++ s2)%string = (String.length s1 + String.length s2)%nat.
Proof.
  induction s1 as [| c s1 IH]; simpl; [reflexivity | rewrite IH; reflexivity].
Qed.

(** Two strings that end with suffixes of the same length. *)
Lemma append_inj_suffix (p1 p2 q1 q2 : string) :
  String.length q1 = String.length q2 ->
  (p1 ++ q1 = p2 ++ q2)%string -> p1 = p2 /\ q1 = q2.
Proof.
  intros Hl H.
  assert (Hlen : String.length p1 = String.length p2).
  { apply (f_equal String.length) in H. rewrite !string_length_append in H. lia. }
  clear Hl. revert p2 H Hlen.
  induction p1 as [| c p1 IH]; intros [| c2 p2] H Hlen; simpl in *; try discriminate.
  - auto.
  - injection H as Hc H. injection Hlen as Hlen.
    destruct (IH p2 H Hlen) as [-> ->]. subst c2. auto.
Qed.

(** A decimal numeral starts with a digit, and determines its number. *)
Lemma string_of_uint_starts u :
  u <> Decimal.Nil -> starts_with_digit (NilEmpty.string_of_uint u).
Proof.
  destruct u; simpl; intros H; try discriminate. congruence.
Qed.

Lemma to_uint_not_Nil n : N.to_uint n <> Decimal.Nil.
Proof.
  intros H. pose proof (DecimalN.Unsigned.to_of (N.to_uint n)) as E.
  destruct n; [discriminate H |].
  simpl in H. pose proof (DecimalPos.Unsigned.to_uint_nonnil p). contradiction.
Qed.

Lemma decimal_starts k : starts_with_digit (decimal k).
Proof. apply string_of_uint_starts, to_uint_not_Nil. Qed.

Lemma decimal_inj a b : 0 <= a -> 0 <= b -> decimal a = decimal b -> a = b.
Proof.
  intros Ha Hb H. unfold decimal in H.
  assert (E : N.to_uint (Z.to_N a) = N.to_uint (Z.to_N b)).
  { pose proof (NilEmpty.usu (N.to_uint (Z.to_N a))) as E1.
    rewrite H, NilEmpty.usu in E1. congruence. }
  apply DecimalN.Unsigned.to_uint_inj in E. lia.
Qed.

Lemma paddedYear_starts n : starts_with_digit (paddedYear n).
Proof.
  unfold paddedYear. destruct (n <? 10000).
  - simpl. rewrite digit_of_digit. discriminate.
  - pose proof (decimal_starts (n / 10000)) as H.
    destruct (decimal (n / 10000)); [contradiction | exact H].
Qed.

Lemma paddedYear_inj a b : 0 <= a -> 0 <= b -> paddedYear a = paddedYear b -> a = b.
Proof.
  intros Ha Hb H. unfold paddedYear in H.
  apply append_inj_suffix in H; [| reflexivity].
  destruct H as [Hp Hq]. apply pad4_inj in Hq.
  destruct (Z.ltb_spec a 10000), (Z.ltb_spec b 10000).
  - rewrite !Z.mod_small in Hq by lia. exact Hq.
  - pose proof (decimal_starts (b / 10000)) as S. rewrite <- Hp in S. contradiction.
  - pose proof (decimal_starts (a / 10000)) as S. rewrite Hp in S. contradiction.
  - apply decimal_inj in Hp; [| apply Z.div_pos; lia | apply Z.div_pos; lia].
    Z.div_mod_to_equations; lia.
Qed.

(** The names of the weekdays and of the months have three letters; the
    months have different names; no weekday starts like [Invalid Date]. *)
Lemma weekday_name_shape k :
  0 <= k <= 6 ->
  exists a b c, nth (Z.to_nat k) weekdayNames ""%string = String a (String b (String c ""))
                /\ a <> "I"%char.
Proof.
  intros H.
  assert (C : k = 0 \/ k = 1 \/ k = 2 \/ k = 3 \/ k = 4 \/ k = 5 \/ k = 6) by lia.
  repeat (destruct C as [C | C]; [subst k; do 3 eexists; split; [reflexivity | discriminate] |]).
  subst k; do 3 eexists; split; [reflexivity | discriminate].
Qed.

Lemma month_name_shape m :
  0 <= m <= 11 ->
  exists a b c, nth (Z.to_nat m) monthAbbrevs ""%string = String a (String b (String c "")).
Proof.
  intros H.
  assert (C : m = 0 \/ m = 1 \/ m = 2 \/ m = 3 \/ m = 4 \/ m = 5 \/ m = 6
              \/ m = 7 \/ m = 8 \/ m = 9 \/ m = 10 \/ m = 11) by lia.
  repeat (destruct C as [C | C]; [subst m; do 3 eexists; reflexivity |]).
  subst m; do 3 eexists; reflexivity.
Qed.

Lemma month_name_inj m1 m2 :
  0 <= m1 <= 11 -> 0 <= m2 <= 11 ->
  nth (Z.to_nat m1) monthAbbrevs ""%string = nth (Z.to_nat m2) monthAbbrevs ""%string ->
  m1 = m2.
Proof.
  intros H1 H2.
  assert (C1 : m1 = 0 \/ m1 = 1 \/ m1 = 2 \/ m1 = 3 \/ m1 = 4 \/ m1 = 5 \/ m1 = 6
              \/ m1 = 7 \/ m1 = 8 \/ m1 = 9 \/ m1 = 10 \/ m1 = 11) by lia.
  assert (C2 : m2 = 0 \/ m2 = 1 \/ m2 = 2 \/ m2 = 3 \/ m2 = 4 \/ m2 = 5 \/ m2 = 6
              \/ m2 = 7 \/ m2 = 8 \/ m2 = 9 \/ m2 = 10 \/ m2 = 11) by lia.
  clear H1 H2.
  repeat (destruct C1 as [C1 | C1]); subst m1;
    repeat (destruct C2 as [C2 | C2]); subst m2;
    intros E; (reflexivity || (vm_compute in E; discriminate E)).
Qed.

Lemma yearString_inj y1 y2 : yearString y1 = yearString y2 -> y1 = y2.
Proof.
  unfold yearString. intros H.
  pose proof (paddedYear_starts (Z.abs y1)) as S1.
  pose proof (paddedYear_starts (Z.abs y2)) as S2.
  destruct (Z.ltb_spec y1 0), (Z.ltb_spec y2 0); cbn [append] in H.
  - injection H as H. apply paddedYear_inj in H; lia.
  - rewrite <- H in S2. simpl in S2. exfalso. apply S2. reflexivity.
  - rewrite H in S1. simpl in S1. exfalso. apply S1. reflexivity.
  - apply paddedYear_inj in H; lia.
Qed.

(** Two time values print the same date string exactly when they are on the
    same day. *)
Lemma civil_of_day_inj z1 z2 : civil_of_day z1 = civil_of_day z2 -> z1 = z2.
Proof.
  intros H. destruct (civil_of_day z1) as [[y m] d] eqn:E1.
  symmetry in H. apply day_of_civil_of_day in E1, H. congruence.
Qed.

Lemma dateString_inj a b : dateString a = dateString b -> Day a = Day b.
Proof.
  intros H. apply civil_of_day_inj. rewrite !civil_of_Day.
  unfold dateString in H.
  destruct (civil_bounds _ _ _ _ (civil_of_Day a)) as [Hma Hda].
  destruct (civil_bounds _ _ _ _ (civil_of_Day b)) as [Hmb Hdb].
  pose proof (WeekDay_range a) as Hwa. pose proof (WeekDay_range b) as Hwb.
  destruct (weekday_name_shape _ Hwa) as (a1 & a2 & a3 & Ea & _).
  destruct (weekday_name_shape _ Hwb) as (b1 & b2 & b3 & Eb & _).
  destruct (month_name_shape _ Hma) as (c1 & c2 & c3 & Ec).
  destruct (month_name_shape _ Hmb) as (d1 & d2 & d3 & Ed).
  pose proof (month_name_inj _ _ Hma Hmb) as Hminj.
  rewrite Ea, Eb, Ec, Ed in H. rewrite Ec, Ed in Hminj.
  unfold pad2 in H. cbn [append] in H.
  injection H as _ _ _ Hc1 Hc2 Hc3 Hd1 Hd2 Hy.
  apply yearString_inj in Hy.
  assert (Hm : MonthFromTime a = MonthFromTime b) by (apply Hminj; congruence).
  assert (Hd : DateFromTime a = DateFromTime b).
  { apply pad2_inj; [lia | lia |]. unfold pad2. congruence. }
  congruence.
Qed.

Lemma dateString_Day a b : Day a = Day b -> dateString a = dateString b.
Proof.
  intros H. unfold dateString, YearFromTime, MonthFromTime, DateFromTime, WeekDay.
  rewrite H. reflexivity.
Qed.

Lemma dateString_valid t : dateString t <> "Invalid Date"%string.
Proof.
  unfold dateString.
  pose proof (WeekDay_range t) as Hw.
  destruct (weekday_name_shape _ Hw) as (a1 & a2 & a3 & Ea & Hne).
  rewrite Ea. cbn [append]. intros H. injection H as H _. apply Hne.
  exact H.
Qed.

(** The comparison of [getEventsForDate]. *)
Lemma toDateString_same_day tz d t :
  (toDateString tz d =? toDateString tz (Some t))%string = on_same_day tz d t.
Proof.
  destruct d as [t1 |]; unfold toDateString, on_same_day.
  - destruct (Z.eqb_spec (Day (LocalTime tz t1)) (Day (LocalTime tz t))) as [E | NE].
    + apply String.eqb_eq, dateString_Day, E.
    + apply String.eqb_neq. intros H. apply NE, dateString_inj, H.
  - apply String.eqb_neq. intros H. symmetry in H. exact (dateString_valid _ H).
Qed.

Lemma on_same_day_fields tz d t :
  on_same_day tz d t = true <->
  exists te, d = Some te
             /\ getFullYear tz te = getFullYear tz t
             /\ getMonth tz te = getMonth tz t
             /\ getDate tz te = getDate tz t.
Proof.
  unfold on_same_day, getFullYear, getMonth, getDate. split.
  - destruct d as [te |]; [| discriminate]. intros H. apply Z.eqb_eq in H.
    exists te. unfold YearFromTime, MonthFromTime, DateFromTime. rewrite H. auto.
  - intros (te & -> & Hy & Hm & Hd). apply Z.eqb_eq, civil_of_day_inj.
    rewrite !civil_of_Day. congruence.
Qed.




(* ================================================================== *)
(** * Further properties *)

(** ** Navigation between months *)

Lemma MakeDay_carry y m d :
  MakeDay y m d = day_of_civil (y + m / 12) (m mod 12) d.
Proof. unfold MakeDay. apply day_of_civil_shift. Qed.

(** On a host without zone transitions, local midnight of a day is a time of
    that day, at 00:00:00.000. *)
Lemma Day_local_midnight_fixed (tz : Z) y m d :
  Day (LocalTime tz (local_midnight tz y m d)) = day_of_civil y m d.
Proof.
  unfold local_midnight. rewrite LocalTime_UTC. apply Day_MakeDate_midnight.
Qed.

Lemma local_midnight_time (tz : Z) y m d :
  getHours tz (local_midnight tz y m d) = 0
  /\ getMinutes tz (local_midnight tz y m d) = 0
  /\ getSeconds tz (local_midnight tz y m d) = 0
  /\ getMilliseconds tz (local_midnight tz y m d) = 0.
Proof.
  unfold getHours, getMinutes, getSeconds, getMilliseconds, local_midnight.
  rewrite LocalTime_UTC.
  unfold HourFromTime, MinFromTime, SecFromTime, msFromTime, MakeDate,
    msPerDay, msPerHour, msPerMinute, msPerSecond.
  rewrite Z.add_0_r.
  split; [| split; [| split]]; Z.div_mod_to_equations; lia.
Qed.

(** The first day of the month that is [k] months away, [k] being 1, 0
    or -1. *)
Lemma Date_ymd_neighbour (tz : Z) y m k :
  -1440 <= tz <= 1440 -> y < 0 \/ 99 < y -> -271819 <= y <= 275759 ->
  0 <= m <= 11 -> -1 <= k <= 1 ->
  Date_ymd tz y (m + k) 1
  = Some (local_midnight tz (y + (m + k) / 12) ((m + k) mod 12) 1).
Proof.
  intros Htz Hk Hy Hm Hkk. unfold Date_ymd.
  rewrite (MakeFullYear_kept y Hk), MakeDay_carry.
  change (MakeTime 0 0 0 0) with 0.
  fold (local_midnight tz (y + (m + k) / 12) ((m + k) mod 12) 1).
  apply TimeClip_in_range.
  assert (Hm' : 0 <= (m + k) mod 12 <= 11)
    by (pose proof (Z.mod_pos_bound (m + k) 12); lia).
  assert (Hq : -1 <= (m + k) / 12 <= 1) by (Z.div_mod_to_equations; lia).
  assert (Hedge : y + (m + k) / 12 = 275760 -> (m + k) mod 12 = 0)
    by (Z.div_mod_to_equations; lia).
  pose proof (day_of_civil_range (y + (m + k) / 12) ((m + k) mod 12) 1
                ltac:(lia) Hm' ltac:(lia) Hedge).
  unfold local_midnight, UTC, LocalTZA, fixedZone, MakeDate, msPerDay, msPerMinute.
  cbn [local_offset]. lia.
Qed.

Lemma neighbour_fields (tz : Z) y m k :
  0 <= m <= 11 -> -1 <= k <= 1 ->
  let t' := local_midnight tz (y + (m + k) / 12) ((m + k) mod 12) 1 in
  getFullYear tz t' = y + (m + k) / 12
  /\ getMonth tz t' = (m + k) mod 12
  /\ getDate tz t' = 1.
Proof.
  intros Hm Hk t'.
  assert (Hm' : 0 <= (m + k) mod 12 <= 11)
    by (pose proof (Z.mod_pos_bound (m + k) 12); lia).
  pose proof (days_in_month_range (y + (m + k) / 12) ((m + k) mod 12)).
  destruct (fields_of_Day tz t' (y + (m + k) / 12) ((m + k) mod 12) 1 Hm'
              ltac:(lia) (Day_local_midnight_fixed tz _ _ _))
    as (H1 & H2 & H3 & _).
  auto.
Qed.

(** X1. On a host without zone transitions, the two navigation buttons show
    the first day, at midnight, of the next and of the previous month, with
    the year carried over in December and in January. *)
Theorem nextMonth_prevMonth_first_day :
  forall tz t : Z,
    -1440 <= tz <= 1440 ->
    getFullYear tz t < 0 \/ 99 < getFullYear tz t ->
    -271819 <= getFullYear tz t <= 275759 ->
    (exists n, nextMonth tz (Some t) = Some n
       /\ getFullYear tz n
          = (if getMonth tz t =? 11 then getFullYear tz t + 1 else getFullYear tz t)
       /\ getMonth tz n = (if getMonth tz t =? 11 then 0 else getMonth tz t + 1)
       /\ getDate tz n = 1 /\ getHours tz n = 0 /\ getMinutes tz n = 0)
    /\ (exists p, prevMonth tz (Some t) = Some p
       /\ getFullYear tz p
          = (if getMonth tz t =? 0 then getFullYear tz t - 1 else getFullYear tz t)
       /\ getMonth tz p = (if getMonth tz t =? 0 then 11 else getMonth tz t - 1)
       /\ getDate tz p = 1 /\ getHours tz p = 0 /\ getMinutes tz p = 0).
Proof.
  intros tz t Htz Hk Hy.
  pose proof (getMonth_range tz t) as Hm.
  set (y := getFullYear tz t) in *. set (m := getMonth tz t) in *.
  split.
  - exists (local_midnight tz (y + (m + 1) / 12) ((m + 1) mod 12) 1).
    split; [apply Date_ymd_neighbour; (assumption || lia) |].
    destruct (neighbour_fields tz y m 1 Hm ltac:(lia)) as (H1 & H2 & H3).
    destruct (local_midnight_time tz (y + (m + 1) / 12) ((m + 1) mod 12) 1)
      as (H4 & H5 & _).
    rewrite H1, H2, H3, H4, H5.
    destruct (Z.eqb_spec m 11) as [E | NE].
    + rewrite E. split; [reflexivity |]. split; [reflexivity |]. auto.
    + rewrite (Z.div_small (m + 1) 12), (Z.mod_small (m + 1) 12) by lia.
      split; [lia |]. auto.
  - exists (local_midnight tz (y + (m + -1) / 12) ((m + -1) mod 12) 1).
    split; [apply (Date_ymd_neighbour tz y m (-1)); (assumption || lia) |].
    destruct (neighbour_fields tz y m (-1) Hm ltac:(lia)) as (H1 & H2 & H3).
    destruct (local_midnight_time tz (y + (m + -1) / 12) ((m + -1) mod 12) 1)
      as (H4 & H5 & _).
    rewrite H1, H2, H3, H4, H5.
    destruct (Z.eqb_spec m 0) as [E | NE].
    + rewrite E. split; [reflexivity |]. split; [reflexivity |]. auto.
    + rewrite (Z.div_small (m + -1) 12), (Z.mod_small (m + -1) 12) by lia.
      split; [lia |]. split; [lia |]. auto.
Qed.

(** From 15 December 2024, on a host one hour east of UTC: the next month is
    January 2025. *)
Lemma nextMonth_prevMonth_first_day_witness :
  -1440 <= 60 <= 1440
  /\ (getFullYear 60 1734264000000 < 0 \/ 99 < getFullYear 60 1734264000000)
  /\ -271819 <= getFullYear 60 1734264000000 <= 275759
  /\ exists n, nextMonth 60 (Some 1734264000000) = Some n
               /\ getFullYear 60 n
                  = (if getMonth 60 1734264000000 =? 11
                     then getFullYear 60 1734264000000 + 1
                     else getFullYear 60 1734264000000).
Proof.
  assert (H1 : -1440 <= 60 <= 1440) by lia.
  assert (H2 : getFullYear 60 1734264000000 < 0 \/ 99 < getFullYear 60 1734264000000)
    by (right; vm_compute; reflexivity).
  assert (H3 : -271819 <= getFullYear 60 1734264000000 <= 275759)
    by (vm_compute; split; discriminate).
  split; [exact H1 |]. split; [exact H2 |]. split; [exact H3 |].
  destruct (nextMonth_prevMonth_first_day 60 1734264000000 H1 H2 H3)
    as [(n & E & F & _) _].
  exists n. split; [exact E | exact F].
Defined.

Lemma getDaysInMonth_same_month (tz : Zone) t1 t2 :
  getFullYear tz t1 = getFullYear tz t2 -> getMonth tz t1 = getMonth tz t2 ->
  getDaysInMonth tz t1 = getDaysInMonth tz t2.
Proof. intros Hy Hm. unfold getDaysInMonth. rewrite Hy, Hm. reflexivity. Qed.

Lemma neighbour_round_trip (tz : Z) y m k :
  -1440 <= tz <= 1440 -> y < -1 \/ 100 < y -> -271818 <= y <= 275758 ->
  0 <= m <= 11 -> k = 1 \/ k = -1 ->
  forall n, Date_ymd tz y (m + k) 1 = Some n ->
  Date_ymd tz (getFullYear tz n) (getMonth tz n + - k) 1
  = Some (local_midnight tz y m 1).
Proof.
  intros Htz Hk Hy Hm Hkk n Hn.
  rewrite Date_ymd_neighbour in Hn by (assumption || lia).
  injection Hn as <-.
  destruct (neighbour_fields tz y m k Hm ltac:(lia)) as (H1 & H2 & _).
  rewrite H1, H2.
  assert (Hm' : 0 <= (m + k) mod 12 <= 11)
    by (pose proof (Z.mod_pos_bound (m + k) 12); lia).
  assert (Hq : -1 <= (m + k) / 12 <= 1) by (Z.div_mod_to_equations; lia).
  rewrite Date_ymd_neighbour by (assumption || lia).
  do 2 f_equal.
  - destruct Hkk; subst k; Z.div_mod_to_equations; lia.
  - destruct Hkk; subst k; Z.div_mod_to_equations; lia.
Qed.

(** X2. On a host without zone transitions, going to the next month and back,
    or to the previous month and back, shows the month one started from, at
    its first day: the same grid is drawn. *)
Theorem nextMonth_prevMonth_round_trip :
  forall tz t : Z,
    -1440 <= tz <= 1440 ->
    getFullYear tz t < -1 \/ 100 < getFullYear tz t ->
    -271818 <= getFullYear tz t <= 275758 ->
    exists first,
      prevMonth tz (nextMonth tz (Some t)) = Some first
      /\ nextMonth tz (prevMonth tz (Some t)) = Some first
      /\ getFullYear tz first = getFullYear tz t
      /\ getMonth tz first = getMonth tz t
      /\ getDate tz first = 1
      /\ getDaysInMonth tz first = getDaysInMonth tz t.
Proof.
  intros tz t Htz Hk Hy.
  pose proof (getMonth_range tz t) as Hm.
  set (y := getFullYear tz t) in *. set (m := getMonth tz t) in *.
  exists (local_midnight tz y m 1).
  pose proof (days_in_month_range y m) as Hn.
  destruct (fields_of_Day tz (local_midnight tz y m 1) y m 1 Hm ltac:(lia)
              (Day_local_midnight_fixed tz y m 1)) as (F1 & F2 & F3 & _).
  assert (Hnext : nextMonth tz (Some t)
                  = Some (local_midnight tz (y + (m + 1) / 12) ((m + 1) mod 12) 1))
    by (apply (Date_ymd_neighbour tz y m 1); (assumption || lia)).
  assert (Hprev : prevMonth tz (Some t)
                  = Some (local_midnight tz (y + (m + -1) / 12) ((m + -1) mod 12) 1))
    by (apply (Date_ymd_neighbour tz y m (-1)); (assumption || lia)).
  rewrite Hnext, Hprev. cbn [prevMonth nextMonth].
  split.
  { apply (neighbour_round_trip tz y m 1 Htz Hk Hy Hm (or_introl eq_refl)).
    apply Date_ymd_neighbour; (assumption || lia). }
  split.
  { apply (neighbour_round_trip tz y m (-1) Htz Hk Hy Hm (or_intror eq_refl)).
    apply (Date_ymd_neighbour tz y m (-1)); (assumption || lia). }
  split; [exact F1 |]. split; [exact F2 |]. split; [exact F3 |].
  apply getDaysInMonth_same_month; assumption.
Qed.

Lemma nextMonth_prevMonth_round_trip_witness :
  -1440 <= 60 <= 1440
  /\ (getFullYear 60 1734264000000 < -1 \/ 100 < getFullYear 60 1734264000000)
  /\ -271818 <= getFullYear 60 1734264000000 <= 275758
  /\ exists first,
       prevMonth 60 (nextMonth 60 (Some 1734264000000)) = Some first
       /\ getDate 60 first = 1.
Proof.
  assert (H1 : -1440 <= 60 <= 1440) by lia.
  assert (H2 : getFullYear 60 1734264000000 < -1 \/ 100 < getFullYear 60 1734264000000)
    by (right; vm_compute; reflexivity).
  assert (H3 : -271818 <= getFullYear 60 1734264000000 <= 275758)
    by (vm_compute; split; discriminate).
  split; [exact H1 |]. split; [exact H2 |]. split; [exact H3 |].
  destruct (nextMonth_prevMonth_round_trip 60 1734264000000 H1 H2 H3)
    as (first & E & _ & _ & _ & F & _).
  exists first. split; [exact E | exact F].
Defined.

(** ** The heading and the columns of the grid *)

(** X3. The heading always finds a month name, in every time zone: the one
    that [toDateString] abbreviates. *)
Theorem headingMonth_defined :
  forall (tz : Zone) (t : Z),
    exists name, headingMonth tz t = Some name
                 /\ In name monthNames
                 /\ substring 0 3 name
                    = nth (Z.to_nat (getMonth tz t)) monthAbbrevs ""%string.
Proof.
  intros tz t. unfold headingMonth.
  pose proof (getMonth_range tz t) as Hm.
  assert (C : getMonth tz t = 0 \/ getMonth tz t = 1 \/ getMonth tz t = 2
              \/ getMonth tz t = 3 \/ getMonth tz t = 4 \/ getMonth tz t = 5
              \/ getMonth tz t = 6 \/ getMonth tz t = 7 \/ getMonth tz t = 8
              \/ getMonth tz t = 9 \/ getMonth tz t = 10 \/ getMonth tz t = 11) by lia.
  repeat (destruct C as [C | C];
          [rewrite C; eexists; split; [reflexivity | split; [simpl; tauto | reflexivity]] |]).
  rewrite C; eexists; split; [reflexivity | split; [simpl; tauto | reflexivity]].
Qed.

Section Grid.

(** The month shown is that of [date], in a year that the constructor takes
    as it is, and the host can display it. *)
Variable tz : Zone.
Variable date : Z.
Hypothesis year_kept : getFullYear tz date < 0 \/ 99 < getFullYear tz date.
Hypothesis displayable :
  month_displayable tz (getFullYear tz date) (getMonth tz date) = true.

Lemma grid_day_fields d :
  1 <= d <= days_in_month (getFullYear tz date) (getMonth tz date) ->
  let cell := local_midnight tz (getFullYear tz date) (getMonth tz date) d in
  getFullYear tz cell = getFullYear tz date
  /\ getMonth tz cell = getMonth tz date
  /\ getDate tz cell = d
  /\ getDay tz cell
     = (day_of_civil (getFullYear tz date) (getMonth tz date) d + 4) mod 7.
Proof.
  intros Hd cell.
  exact (displayable_day_fields tz _ _ d (getMonth_range tz date) displayable Hd).
Qed.

(** The cell of day [d] is at index [w + d - 1]. *)
Lemma getDaysInMonth_cell d :
  1 <= d <= days_in_month (getFullYear tz date) (getMonth tz date) ->
  nth_error (getDaysInMonth tz date)
    (Z.to_nat (weekday_of_first (getFullYear tz date) (getMonth tz date) + d - 1))
  = Some (Some (Some (local_midnight tz (getFullYear tz date) (getMonth tz date) d))).
Proof.
  intros Hd. rewrite (getDaysInMonth_displayable tz date year_kept displayable).
  unfold month_grid.
  set (year := getFullYear tz date) in *. set (month := getMonth tz date) in *.
  pose proof (weekday_of_first_range year month) as Hw.
  set (w := weekday_of_first year month) in *.
  rewrite nth_error_app2 by (rewrite repeat_length; lia).
  rewrite repeat_length.
  replace (Z.to_nat (w + d - 1) - Z.to_nat w)%nat with (Z.to_nat (d - 1)) by lia.
  rewrite nth_error_map.
  rewrite (nth_error_nth' _ 0%nat) by (rewrite length_seq; lia).
  rewrite seq_nth by lia. cbn [option_map].
  replace (Z.of_nat (1 + Z.to_nat (d - 1))) with d by lia. reflexivity.
Qed.

(** Every entry of the grid that is not [null] is the cell of a day. *)
Lemma getDaysInMonth_entries cell :
  In (Some cell) (getDaysInMonth tz date) ->
  exists d, 1 <= d <= days_in_month (getFullYear tz date) (getMonth tz date)
            /\ cell = Some (local_midnight tz (getFullYear tz date) (getMonth tz date) d).
Proof.
  rewrite (getDaysInMonth_displayable tz date year_kept displayable).
  unfold month_grid. intros H.
  apply in_app_or in H. destruct H as [H | H].
  - apply repeat_spec in H. discriminate H.
  - apply in_map_iff in H. destruct H as (i & E & Hi). apply in_seq in Hi.
    exists (Z.of_nat i). split; [lia | congruence].
Qed.

End Grid.


Lemma isToday_fields (tz : Zone) now t :
  isToday tz now (Some t) = true <->
  getFullYear tz t = getFullYear tz now
  /\ getMonth tz t = getMonth tz now
  /\ getDate tz t = getDate tz now.
Proof.
  unfold isToday. rewrite toDateString_same_day, on_same_day_fields. split.
  - intros (te & E & H). injection E as <-. exact H.
  - intros H. exists t. auto.
Qed.

Lemma getDate_valid (tz : Zone) t :
  1 <= getDate tz t <= days_in_month (getFullYear tz t) (getMonth tz t).
Proof.
  unfold getDate, getFullYear, getMonth.
  apply (civil_date_valid _ _ _ _ (civil_of_Day (LocalTime tz t))).
Qed.

Lemma dateString_weekday t :
  substring 0 3 (dateString t) = nth (Z.to_nat (WeekDay t)) weekdayNames ""%string.
Proof.
  unfold dateString.
  destruct (weekday_name_shape _ (WeekDay_range t)) as (a & b & c & E & _).
  rewrite E. reflexivity.
Qed.

(** X4. In a displayable month, each day sits in the column of its weekday:
    the column of its cell in the seven-column grid is the weekday of its
    date, and the header of that column is the weekday that [toDateString]
    prints for it. *)
Theorem grid_day_under_its_weekday :
  forall (tz : Zone) (date d : Z),
    getFullYear tz date < 0 \/ 99 < getFullYear tz date ->
    month_displayable tz (getFullYear tz date) (getMonth tz date) = true ->
    1 <= d <= days_in_month (getFullYear tz date) (getMonth tz date) ->
    exists (index : nat) (cell : Z) (name : string),
      nth_error (getDaysInMonth tz date) index = Some (Some (Some cell))
      /\ getDate tz cell = d
      /\ gridColumn index = Z.to_nat (getDay tz cell)
      /\ nth_error weekdayHeader (gridColumn index) = Some name
      /\ substring 0 3 (toDateString tz (Some cell)) = name.
Proof.
  intros tz date d Hk Hdisp Hd.
  pose proof (grid_day_fields tz date Hdisp d Hd) as F. cbv zeta in F.
  destruct F as (_ & _ & F3 & F4).
  set (year := getFullYear tz date) in *. set (month := getMonth tz date) in *.
  pose proof (weekday_of_first_range year month) as Hw.
  assert (Hcol : gridColumn (Z.to_nat (weekday_of_first year month + d - 1))
                 = Z.to_nat (getDay tz (local_midnight tz year month d))).
  { rewrite F4, <- day_of_civil_shift. unfold gridColumn, weekday_of_first in *.
    set (z := day_of_civil year month 1) in *.
    assert (H1 : 0 <= (z + 4) mod 7 + d - 1) by lia.
    assert (H2 : 0 <= (z + d - 1 + 4) mod 7)
      by (pose proof (Z.mod_pos_bound (z + d - 1 + 4) 7); lia).
    apply Nat2Z.inj. rewrite Nat2Z.inj_mod, !Z2Nat.id by assumption.
    change (Z.of_nat 7) with 7.
    Z.div_mod_to_equations; lia. }
  exists (Z.to_nat (weekday_of_first year month + d - 1)),
         (local_midnight tz year month d),
         (nth (Z.to_nat (getDay tz (local_midnight tz year month d))) weekdayNames ""%string).
  split; [apply (getDaysInMonth_cell tz date Hk Hdisp d Hd) |].
  split; [exact F3 |]. split; [exact Hcol |]. split.
  - rewrite Hcol. apply nth_error_nth'.
    pose proof (WeekDay_range (LocalTime tz (local_midnight tz year month d))).
    unfold getDay.
    change (Z.to_nat (WeekDay (LocalTime tz (local_midnight tz year month d))) < 7)%nat.
    lia.
  - unfold toDateString, getDay. apply dateString_weekday.
Qed.

(** Sunday 27 October 2024 in Europe/Paris, the day on which summer time
    ends, is in the first column. *)
Lemma grid_day_under_its_weekday_witness :
  (getFullYear Europe_Paris_2024 1728993600000 < 0
   \/ 99 < getFullYear Europe_Paris_2024 1728993600000)
  /\ month_displayable Europe_Paris_2024
       (getFullYear Europe_Paris_2024 1728993600000)
       (getMonth Europe_Paris_2024 1728993600000) = true
  /\ 1 <= 27 <= days_in_month (getFullYear Europe_Paris_2024 1728993600000)
                              (getMonth Europe_Paris_2024 1728993600000)
  /\ exists (index : nat) (cell : Z),
       nth_error (getDaysInMonth Europe_Paris_2024 1728993600000) index
       = Some (Some (Some cell))
       /\ getDate Europe_Paris_2024 cell = 27
       /\ gridColumn index = Z.to_nat (getDay Europe_Paris_2024 cell).
Proof.
  assert (H1 : getFullYear Europe_Paris_2024 1728993600000 < 0
               \/ 99 < getFullYear Europe_Paris_2024 1728993600000)
    by (right; vm_compute; reflexivity).
  assert (H2 : month_displayable Europe_Paris_2024
                 (getFullYear Europe_Paris_2024 1728993600000)
                 (getMonth Europe_Paris_2024 1728993600000) = true)
    by (vm_compute; reflexivity).
  assert (H3 : 1 <= 27 <= days_in_month (getFullYear Europe_Paris_2024 1728993600000)
                                        (getMonth Europe_Paris_2024 1728993600000))
    by (vm_compute; split; discriminate).
  split; [exact H1 |]. split; [exact H2 |]. split; [exact H3 |].
  destruct (grid_day_under_its_weekday Europe_Paris_2024 1728993600000 27 H1 H2 H3)
    as (index & cell & name & E1 & E2 & E3 & _).
  exists index, cell. split; [exact E1 |]. split; [exact E2 | exact E3].
Defined.

(** X5. In a displayable month, the cell highlighted as today is the cell of
    today's day number when the month shown is the current month; there is
    exactly one such cell then, and none in any other month. *)
Theorem isToday_marks_one_cell :
  forall (tz : Zone) (date now : Z),
    getFullYear tz date < 0 \/ 99 < getFullYear tz date ->
    month_displayable tz (getFullYear tz date) (getMonth tz date) = true ->
    (forall cell,
        In (Some cell) (getDaysInMonth tz date) ->
        (isToday tz now cell = true <->
         getFullYear tz now = getFullYear tz date
         /\ getMonth tz now = getMonth tz date
         /\ Date_getDate tz cell = Some (getDate tz now)))
    /\ (getFullYear tz now = getFullYear tz date ->
        getMonth tz now = getMonth tz date ->
        exists cell, In (Some cell) (getDaysInMonth tz date)
                     /\ isToday tz now cell = true
                     /\ dayStyle tz now None cell = TodayStyle)
    /\ (forall c1 c2,
          In (Some c1) (getDaysInMonth tz date) ->
          In (Some c2) (getDaysInMonth tz date) ->
          isToday tz now c1 = true -> isToday tz now c2 = true -> c1 = c2).
Proof.
  intros tz date now Hk Hdisp.
  assert (Hcell : forall cell,
             In (Some cell) (getDaysInMonth tz date) ->
             (isToday tz now cell = true <->
              getFullYear tz now = getFullYear tz date
              /\ getMonth tz now = getMonth tz date
              /\ Date_getDate tz cell = Some (getDate tz now))).
  { intros cell Hin.
    destruct (getDaysInMonth_entries tz date Hk Hdisp cell Hin) as (d & Hd & ->).
    pose proof (grid_day_fields tz date Hdisp d Hd) as F. cbv zeta in F.
    destruct F as (F1 & F2 & F3 & _).
    rewrite isToday_fields, F1, F2, F3. cbn [Date_getDate option_map]. rewrite F3.
    split.
    - intros (H1 & H2 & H3).
      split; [symmetry; exact H1 |]. split; [symmetry; exact H2 |].
      apply (f_equal Some). exact H3.
    - intros (H1 & H2 & H3). injection H3 as H3.
      split; [symmetry; exact H1 |]. split; [symmetry; exact H2 | exact H3]. }
  split; [exact Hcell |]. split.
  - intros Ey Em.
    pose proof (getDate_valid tz now) as Hd. rewrite Ey, Em in Hd.
    pose proof (grid_day_fields tz date Hdisp (getDate tz now) Hd) as F.
    cbv zeta in F. destruct F as (_ & _ & F3 & _).
    assert (Hin : In (Some (Some (local_midnight tz (getFullYear tz date)
                                    (getMonth tz date) (getDate tz now))))
                     (getDaysInMonth tz date)).
    { eapply nth_error_In. apply (getDaysInMonth_cell tz date Hk Hdisp _ Hd). }
    assert (Ht : isToday tz now (Some (local_midnight tz (getFullYear tz date)
                                         (getMonth tz date) (getDate tz now))) = true).
    { apply (Hcell _ Hin). cbn [Date_getDate option_map]. rewrite F3.
      split; [exact Ey |]. split; [exact Em | reflexivity]. }
    eexists. split; [exact Hin |]. split; [exact Ht |].
    unfold dayStyle. rewrite Ht. reflexivity.
  - intros c1 c2 H1 H2 T1 T2.
    apply (Hcell _ H1) in T1. apply (Hcell _ H2) in T2.
    destruct T1 as (_ & _ & D1). destruct T2 as (_ & _ & D2).
    destruct (getDaysInMonth_entries tz date Hk Hdisp c1 H1) as (d1 & Hd1 & ->).
    destruct (getDaysInMonth_entries tz date Hk Hdisp c2 H2) as (d2 & Hd2 & ->).
    pose proof (grid_day_fields tz date Hdisp d1 Hd1) as G1. cbv zeta in G1.
    pose proof (grid_day_fields tz date Hdisp d2 Hd2) as G2. cbv zeta in G2.
    destruct G1 as (_ & _ & F1 & _). destruct G2 as (_ & _ & F2 & _).
    cbn [Date_getDate option_map] in D1, D2. rewrite F1 in D1. rewrite F2 in D2.
    injection D1 as D1. injection D2 as D2. rewrite D1, D2. reflexivity.
Qed.

Lemma isToday_marks_one_cell_witness :
  (getFullYear Europe_Paris_2024 1728993600000 < 0
   \/ 99 < getFullYear Europe_Paris_2024 1728993600000)
  /\ month_displayable Europe_Paris_2024
       (getFullYear Europe_Paris_2024 1728993600000)
       (getMonth Europe_Paris_2024 1728993600000) = true
  /\ exists cell,
       In (Some cell) (getDaysInMonth Europe_Paris_2024 1728993600000)
       /\ isToday Europe_Paris_2024 1729980000000 cell = true.
Proof.
  assert (H1 : getFullYear Europe_Paris_2024 1728993600000 < 0
               \/ 99 < getFullYear Europe_Paris_2024 1728993600000)
    by (right; vm_compute; reflexivity).
  assert (H2 : month_displayable Europe_Paris_2024
                 (getFullYear Europe_Paris_2024 1728993600000)
                 (getMonth Europe_Paris_2024 1728993600000) = true)
    by (vm_compute; reflexivity).
  split; [exact H1 |]. split; [exact H2 |].
  destruct (isToday_marks_one_cell Europe_Paris_2024 1728993600000 1729980000000 H1 H2)
    as (_ & Hex & _).
  destruct Hex as (cell & Hin & Ht & _).
  - vm_compute. reflexivity.
  - vm_compute. reflexivity.
  - exists cell. split; [exact Hin | exact Ht].
Defined.



(** X8. On a host without zone transitions and within a day of UTC, the grid
    of every month of the years -271820 to 275759, the years 0 to 99
    excepted, is the grid of that month; it has from 28 to 37 cells, which
    makes at most six rows. *)
Theorem getDaysInMonth_without_transitions :
  forall tz date : Z,
    -1440 <= tz <= 1440 ->
    getFullYear tz date < 0 \/ 99 < getFullYear tz date ->
    -271820 <= getFullYear tz date <= 275759 ->
    getDaysInMonth tz date = month_grid tz (getFullYear tz date) (getMonth tz date)
    /\ getDaysInMonth_as_stated tz date
    /\ (28 <= List.length (getDaysInMonth tz date) <= 37)%nat.
Proof.
  intros tz date Htz Hk Hy.
  pose proof (month_displayable_fixed tz _ _ Htz Hy (getMonth_range tz date)) as Hdisp.
  pose proof (getDaysInMonth_displayable tz date Hk Hdisp) as Hgrid.
  split; [exact Hgrid |]. split.
  - exact (getDaysInMonth_as_stated_displayable tz date Hk Hdisp).
  - rewrite Hgrid. unfold month_grid.
    rewrite length_app, repeat_length, length_map, length_seq.
    pose proof (weekday_of_first_range (getFullYear tz date) (getMonth tz date)).
    pose proof (days_in_month_range (getFullYear tz date) (getMonth tz date)).
    lia.
Qed.

Lemma getDaysInMonth_without_transitions_witness :
  -1440 <= -300 <= 1440
  /\ (getFullYear (-300) 1707912000000 < 0 \/ 99 < getFullYear (-300) 1707912000000)
  /\ -271820 <= getFullYear (-300) 1707912000000 <= 275759
  /\ (28 <= List.length (getDaysInMonth (-300)%Z 1707912000000%Z) <= 37)%nat.
Proof.
  assert (H1 : -1440 <= -300 <= 1440) by lia.
  assert (H2 : getFullYear (-300) 1707912000000 < 0
               \/ 99 < getFullYear (-300) 1707912000000)
    by (right; vm_compute; reflexivity).
  assert (H3 : -271820 <= getFullYear (-300) 1707912000000 <= 275759)
    by (vm_compute; split; discriminate).
  split; [exact H1 |]. split; [exact H2 |]. split; [exact H3 |].
  exact (proj2 (proj2 (getDaysInMonth_without_transitions (-300) 1707912000000 H1 H2 H3))).
Defined.

(** ** The task form, continued *)

Lemma editTimestamp_instant_witness :
  -1440 <= 60 <= 1440
  /\ Date_of_string 60 "2024-01-15T10:30:00.000Z" = Some 1705314600000
  /\ -62167219200000 <= 1705314600000 <= 253402300799999
  /\ editTimestamp 60 (Some "2024-01-15T10:30:00.000Z")
     = Returned (Some (isoString
         (1705314600000 - 1705314600000 mod msPerMinute - 60 * msPerMinute))).
Proof.
  assert (H1 : -1440 <= 60 <= 1440) by lia.
  assert (H2 : Date_of_string 60 "2024-01-15T10:30:00.000Z" = Some 1705314600000)
    by (vm_compute; reflexivity).
  assert (H3 : -62167219200000 <= 1705314600000 <= 253402300799999) by lia.
  split; [exact H1 |]. split; [exact H2 |]. split; [exact H3 |].
  exact (proj2 (editTimestamp_instant 60 "2024-01-15T10:30:00.000Z" 1705314600000
                  H1 H2 H3)).
Defined.



(** The days of the years 1 to 9998. *)
Lemma day_of_civil_four_digit y m d :
  1 <= y <= 9998 -> 0 <= m <= 11 -> 1 <= d <= 31 ->
  -719162 <= day_of_civil y m d <= 2932531.
Proof.
  intros Hy Hm Hd. unfold day_of_civil.
  split_ifs; Z.div_mod_to_equations; lia.
Qed.

Lemma Day_MakeDate day time :
  0 <= time < msPerDay -> Day (MakeDate day time) = day.
Proof.
  unfold Day, MakeDate, msPerDay. intros H. Z.div_mod_to_equations; lia.
Qed.

(** X11. On a host without zone transitions, a due date typed into the
    [datetime-local] input is submitted as the instant that shows these very
    fields on the host: creating a task keeps the local time that was typed.
    (Editing does not: the form is filled with the UTC fields.) *)
Theorem submitTimestamp_reads_local_time :
  forall tz y mo d h mi : Z,
    -1440 <= tz <= 1440 ->
    1 <= y <= 9998 -> 1 <= mo <= 12 -> 1 <= d <= days_in_month y (mo - 1) ->
    0 <= h <= 23 -> 0 <= mi <= 59 ->
    exists t,
      submitTimestamp tz (datetime_local y mo d h mi) = Returned (Some (isoString t))
      /\ Date_of_string tz (isoString t) = Some t
      /\ getFullYear tz t = y /\ getMonth tz t = mo - 1 /\ getDate tz t = d
      /\ getHours tz t = h /\ getMinutes tz t = mi
      /\ getSeconds tz t = 0 /\ getMilliseconds tz t = 0.
Proof.
  intros tz y mo d h mi Htz Hy Hmo Hd Hh Hmi.
  pose proof (days_in_month_range y (mo - 1)) as Hn.
  set (day := MakeDay y (mo - 1) d).
  set (L := MakeDate day (MakeTime h mi 0 0)).
  assert (Hday : day = day_of_civil y (mo - 1) d)
    by (apply MakeDay_civil; lia).
  pose proof (day_of_civil_four_digit y (mo - 1) d Hy ltac:(lia) ltac:(lia)) as Hrange.
  rewrite <- Hday in Hrange.
  assert (Htime : 0 <= MakeTime h mi 0 0 < msPerDay)
    by (unfold MakeTime, msPerDay, msPerHour, msPerMinute, msPerSecond; lia).
  assert (HL : L = day * msPerDay + MakeTime h mi 0 0) by reflexivity.
  assert (Ht : -62167219200000 <= UTC tz L <= 253402300799999).
  { unfold UTC, LocalTZA, fixedZone. cbn [local_offset].
    unfold msPerDay, msPerMinute in *. lia. }
  exists (UTC tz L).
  assert (Hparse : Date_of_string tz (datetime_local y mo d h mi) = Some (UTC tz L)).
  { unfold Date_of_string, datetime_local.
    rewrite Date_parse_minutes by lia. fold day. fold L.
    apply TimeClip_in_range. lia. }
  split.
  { unfold submitTimestamp. rewrite Hparse. reflexivity. }
  split.
  { unfold Date_of_string. rewrite Date_parse_isoString by (apply year_range; exact Ht).
    apply TimeClip_in_range. lia. }
  assert (HD : Day (LocalTime tz (UTC tz L)) = day_of_civil y (mo - 1) d).
  { rewrite LocalTime_UTC. unfold L. rewrite Day_MakeDate by exact Htime. exact Hday. }
  destruct (fields_of_Day tz (UTC tz L) y (mo - 1) d ltac:(lia) Hd HD)
    as (F1 & F2 & F3 & _).
  split; [exact F1 |]. split; [exact F2 |]. split; [exact F3 |].
  unfold getHours, getMinutes, getSeconds, getMilliseconds.
  rewrite LocalTime_UTC, HL.
  unfold HourFromTime, MinFromTime, SecFromTime, msFromTime, MakeTime,
    msPerDay, msPerHour, msPerMinute, msPerSecond.
  clear - Hh Hmi.
  split; [| split; [| split]]; Z.div_mod_to_equations; lia.
Qed.

Lemma submitTimestamp_reads_local_time_witness :
  -1440 <= 60 <= 1440 /\ 1 <= 2024 <= 9998 /\ 1 <= 1 <= 12
  /\ 1 <= 15 <= days_in_month 2024 (1 - 1)
  /\ 0 <= 10 <= 23 /\ 0 <= 30 <= 59
  /\ exists t,
       submitTimestamp 60 (datetime_local 2024 1 15 10 30) = Returned (Some (isoString t))
       /\ getHours 60 t = 10.
Proof.
  assert (H1 : -1440 <= 60 <= 1440) by lia.
  assert (H2 : 1 <= 2024 <= 9998) by lia.
  assert (H3 : 1 <= 1 <= 12) by lia.
  assert (H4 : 1 <= 15 <= days_in_month 2024 (1 - 1)) by (vm_compute; split; discriminate).
  assert (H5 : 0 <= 10 <= 23) by lia.
  assert (H6 : 0 <= 30 <= 59) by lia.
  split; [exact H1 |]. split; [exact H2 |]. split; [exact H3 |].
  split; [exact H4 |]. split; [exact H5 |]. split; [exact H6 |].
  destruct (submitTimestamp_reads_local_time 60 2024 1 15 10 30 H1 H2 H3 H4 H5 H6)
    as (t & E & _ & _ & _ & _ & F & _).
  exists t. split; [exact E | exact F].
Defined.

(** ** The category select *)

Lemma formStep_keeps_category_listed (st : TaskForm) (a : FormAction) :
  action_offered st a = true ->
  is_categories_response a = false ->
  In (category (formData st)) (availableCategories st) ->
  In (category (formData (formStep st a))) (availableCategories (formStep st a)).
Proof.
  intros Hoff Hresp Hin.
  destruct a as [v | v | v | v | v | v | v | | | r];
    cbn [formStep setFormData formData availableCategories with_title
         with_description with_priority with_due_date with_reminder category];
    try exact Hin; [| | discriminate Hresp].
  - (* the category select *)
    destruct (String.eqb_spec v "_add_new_") as [E | NE];
      cbn [formData availableCategories setFormData with_category category];
      [exact Hin |].
    cbn [action_offered] in Hoff. apply includes_In in Hoff.
    unfold categoryOptions in Hoff. apply in_app_or in Hoff.
    destruct Hoff as [H | [H | []]]; [exact H | congruence].
  - (* the Add button *)
    unfold handleAddCategory.
    destruct (truthy (trim (newCategory st))
              && negb (includes (availableCategories st) (trim (newCategory st))))%bool;
      [| exact Hin].
    cbn [formData availableCategories with_category category].
    apply in_or_app. right. left. reflexivity.
Qed.

(** X12. In the form for a new task, as long as no answer of the categories
    request arrives, the category of the form is one of the categories that
    the select offers, whatever the user does with the controls. *)
Theorem category_among_options :
  forall acts : list FormAction,
    actions_offered (initialTaskForm newTaskFormData) acts = true ->
    forallb (fun a => negb (is_categories_response a)) acts = true ->
    In (category (formData (formRun (initialTaskForm newTaskFormData) acts)))
       (availableCategories (formRun (initialTaskForm newTaskFormData) acts)).
Proof.
  assert (H : forall acts st,
             actions_offered st acts = true ->
             forallb (fun a => negb (is_categories_response a)) acts = true ->
             In (category (formData st)) (availableCategories st) ->
             In (category (formData (formRun st acts)))
                (availableCategories (formRun st acts))).
  { induction acts as [| a acts IH]; intros st Hoff Hno Hin; [exact Hin |].
    cbn [actions_offered forallb] in Hoff, Hno.
    apply andb_true_iff in Hoff. destruct Hoff as [Ha Hrest].
    apply andb_true_iff in Hno. destruct Hno as [Hr Hno].
    apply negb_true_iff in Hr.
    unfold formRun. cbn [fold_left].
    apply (IH (formStep st a) Hrest Hno).
    apply formStep_keeps_category_listed; assumption. }
  intros acts Hoff Hno. apply (H acts _ Hoff Hno).
  left. reflexivity.
Qed.

Lemma category_among_options_witness :
  actions_offered (initialTaskForm newTaskFormData)
    [ChangeCategory "_add_new_"; ChangeNewCategory " Travel "; ClickAddCategory] = true
  /\ forallb (fun a => negb (is_categories_response a))
       [ChangeCategory "_add_new_"; ChangeNewCategory " Travel "; ClickAddCategory] = true
  /\ In (category (formData (formRun (initialTaskForm newTaskFormData)
           [ChangeCategory "_add_new_"; ChangeNewCategory " Travel "; ClickAddCategory])))
        (availableCategories (formRun (initialTaskForm newTaskFormData)
           [ChangeCategory "_add_new_"; ChangeNewCategory " Travel "; ClickAddCategory])).
Proof.
  assert (H1 : actions_offered (initialTaskForm newTaskFormData)
                 [ChangeCategory "_add_new_"; ChangeNewCategory " Travel ";
                  ClickAddCategory] = true) by reflexivity.
  assert (H2 : forallb (fun a => negb (is_categories_response a))
                 [ChangeCategory "_add_new_"; ChangeNewCategory " Travel ";
                  ClickAddCategory] = true) by reflexivity.
  split; [exact H1 |]. split; [exact H2 |].
  exact (category_among_options _ H1 H2).
Defined.

(** X13. When the answer of the categories request arrives after the user
    has added a category of their own, the list is replaced by the defaults
    and the categories of the answer: the category that the form holds, and
    will submit, is no longer among those that the select offers. *)
Theorem category_lost_by_late_response :
  let st := formRun (initialTaskForm newTaskFormData)
              [ChangeCategory "_add_new_"; ChangeNewCategory " Travel ";
               ClickAddCategory; CategoriesResponse (Some ["Work"; "Garden"]);
               ChangeTitle "Book flights"] in
  actions_offered (initialTaskForm newTaskFormData)
    [ChangeCategory "_add_new_"; ChangeNewCategory " Travel ";
     ClickAddCategory; CategoriesResponse (Some ["Work"; "Garden"]);
     ChangeTitle "Book flights"] = true
  /\ category (formData st) = "Travel"%string
  /\ availableCategories st
     = ["General"; "Work"; "Personal"; "Health"; "Shopping"; "Finance"; "Garden"]%string
  /\ ~ In (category (formData st)) (categoryOptions st)
  /\ submitForm 0 st
     = Some (Returned {| sd_title := "Book flights"; sd_description := "";
                         sd_category := "Travel"; sd_priority := "Medium";
                         sd_due_date := None; sd_reminder := None |}).
Proof.
  cbv zeta. split; [reflexivity |]. split; [reflexivity |]. split; [reflexivity |].
  split; [| reflexivity].
  intros H. apply includes_In in H. discriminate H.
Qed.

(** ** The session id of the fragment *)

Lemma capture_not_amp_clean s :
  has_char "&" s = false -> capture_not_amp s = s.
Proof.
  induction s as [| c s IH]; cbn [has_char capture_not_amp]; [reflexivity |].
  intros H. apply orb_false_iff in H. destruct H as [Hc Hs].
  rewrite Hc, IH by exact Hs. reflexivity.
Qed.

Lemma capture_not_amp_stops s rest :
  has_char "&" s = false -> capture_not_amp (s ++ String "&" rest) = s.
Proof.
  induction s as [| c s IH]; cbn [has_char capture_not_amp append].
  - intros _. reflexivity.
  - intros H. apply orb_false_iff in H. destruct H as [Hc Hs].
    rewrite Hc, IH by exact Hs. reflexivity.
Qed.

Lemma capture_not_amp_has_no_amp s : has_char "&" (capture_not_amp s) = false.
Proof.
  induction s as [| c s IH]; cbn [capture_not_amp]; [reflexivity |].
  destruct (Ascii.eqb c "&") eqn:E; [reflexivity |].
  cbn [has_char]. rewrite E, IH. reflexivity.
Qed.

(** X14. A session id that is not empty and holds no [&] is found in the
    fragment that the identity provider appends, alone or followed by other
    parameters, and is found whole. *)
Theorem match_session_id_fragment :
  forall sid rest : string,
    sid <> ""%string -> has_char "&" sid = false ->
    match_session_id ("#session_id=" ++ sid) = Some sid
    /\ match_session_id ("#session_id=" ++ sid ++ "&" ++ rest) = Some sid.
Proof.
  intros sid rest Hne Hclean.
  assert (Hat : forall tail, capture_not_amp tail = sid ->
                  match_session_id ("#session_id=" ++ tail) = Some sid).
  { intros tail Hcap.
    change (match_session_id ("#session_id=" ++ tail))
      with (match
              match capture_not_amp tail with
              | EmptyString => None
              | cap => Some cap
              end
            with
            | Some cap => Some cap
            | None => match_session_id ("ession_id=" ++ tail)
            end).
    rewrite Hcap. destruct sid; [contradiction | reflexivity]. }
  split.
  - apply Hat, capture_not_amp_clean, Hclean.
  - apply Hat. apply (capture_not_amp_stops sid rest Hclean).
Qed.

Lemma match_session_id_fragment_witness :
  "abc123"%string <> ""%string
  /\ has_char "&" "abc123" = false
  /\ match_session_id "#session_id=abc123&state=xyz" = Some "abc123"%string.
Proof.
  assert (H1 : "abc123"%string <> ""%string) by discriminate.
  assert (H2 : has_char "&" "abc123" = false) by reflexivity.
  split; [exact H1 |]. split; [exact H2 |].
  exact (proj2 (match_session_id_fragment "abc123" "state=xyz" H1 H2)).
Defined.

(** X15. Whatever the fragment, a session id that [initAuth] takes from it is
    not empty and holds no [&]. *)
Theorem match_session_id_capture :
  forall s cap : string,
    match_session_id s = Some cap ->
    cap <> ""%string /\ has_char "&" cap = false.
Proof.
  assert (Hat : forall s cap, session_id_at s = Some cap ->
                  cap <> ""%string /\ has_char "&" cap = false).
  { intros s cap. unfold session_id_at.
    destruct (strip_prefix "session_id=" s) as [r |]; [| discriminate].
    pose proof (capture_not_amp_has_no_amp r) as Hc.
    destruct (capture_not_amp r) as [| c r'] eqn:E; [discriminate |].
    intros H. injection H as <-. split; [discriminate | exact Hc]. }
  induction s as [| c s IH]; intros cap; cbn [match_session_id].
  - destruct (session_id_at "") as [cap' |] eqn:E; [| discriminate].
    intros H. injection H as <-. exact (Hat _ _ E).
  - destruct (session_id_at (String c s)) as [cap' |] eqn:E.
    + intros H. injection H as <-. exact (Hat _ _ E).
    + apply IH.
Qed.

Lemma match_session_id_capture_witness :
  match_session_id "#a=1&session_id=abc123&state=xyz" = Some "abc123"%string
  /\ "abc123"%string <> ""%string /\ has_char "&" "abc123" = false.
Proof.
  assert (H : match_session_id "#a=1&session_id=abc123&state=xyz" = Some "abc123"%string)
    by reflexivity.
  split; [exact H |].
  exact (match_session_id_capture _ _ H).
Defined.
